(** * Lessons: the Editor.js "Lesson" block tool ([src/index.js])

    A shallow embedding of the [Lessons] class: its record normalisation,
    the level registry ([levels], [defaultLevel], [currentLevel]), the DOM
    projection ([getTag], [render]), the [data] getter and setter, [merge],
    [save] and [onPaste], followed by the properties of the specification
    that were checked against it. *)

From Stdlib Require Import ZArith List String Ascii Bool Lia.
From Stdlib Require Import DecimalString DecimalPos.
From stdpp Require Import base option gmap strings.
Import ListNotations.

Local Open Scope string_scope.
Local Open Scope Z_scope.

Set Warnings "-register-all".

(** ** The JavaScript values the class handles *)

Module JS.

(** Numbers: the class computes with level numbers only, so a number is an
    integer or [NaN].  [Int z] stands for the double of that integer value,
    with [|z| < 10^21] so that [Number::toString] prints a plain decimal
    numeral; numerals read by [parseInt] are kept as mathematical integers. *)
Inductive number := NaN | Int (z : Z).

(** Strings are sequences of code units below 256 (the Latin-1 range).
    Objects are plain data objects, as [JSON.parse] or an object literal
    builds them: a finite map from property names to values, with the
    [toString] of [Object.prototype]. *)
Inductive value :=
| VUndefined
| VNull
| VBool (b : bool)
| VNum (n : number)
| VStr (s : string)
| VObj (o : gmap string value).

Inductive Error := TypeError.

Inductive Res (A : Type) :=
| Ok (a : A)
| Throw (e : Error).
Arguments Ok {A} a.
Arguments Throw {A} e.

(** [typeof v] *)
Definition typeof (v : value) : string :=
  match v with
  | VUndefined => "undefined"
  | VNull => "object"
  | VBool _ => "boolean"
  | VNum _ => "number"
  | VStr _ => "string"
  | VObj _ => "object"
  end.

(** ToBoolean *)
Definition truthy (v : value) : bool :=
  match v with
  | VUndefined | VNull => false
  | VBool b => b
  | VNum NaN => false
  | VNum (Int z) => negb (z =? 0)
  | VStr s => negb (s =? "")%string
  | VObj _ => true
  end.

(** [a || b] on values that are already evaluated. *)
Definition or (a b : value) : value := if truthy a then a else b.

(** [v !== undefined] *)
Definition defined (v : value) : bool :=
  match v with VUndefined => false | _ => true end.

(** Property read [v.k]: a [TypeError] on [undefined] and [null]; a
    primitive has none of the properties the class reads. *)
Definition prop (v : value) (k : string) : Res value :=
  match v with
  | VUndefined | VNull => Throw TypeError
  | VObj o => Ok (default VUndefined (o !! k))
  | _ => Ok VUndefined
  end.

(** ToString; a plain object prints as [[object Object]]. *)
Definition to_string (v : value) : string :=
  match v with
  | VUndefined => "undefined"
  | VNull => "null"
  | VBool true => "true"
  | VBool false => "false"
  | VNum NaN => "NaN"
  | VNum (Int z) => NilZero.string_of_int (Z.to_int z)
  | VStr s => s
  | VObj _ => "[object Object]"
  end.

(** ToNumber on the primitives that are not strings. *)
Definition to_number (v : value) : number :=
  match v with
  | VNull => Int 0
  | VBool true => Int 1
  | VBool false => Int 0
  | VNum n => n
  | _ => NaN
  end.

(** [a + b]: concatenation as soon as one side is a string or an object. *)
Definition add (a b : value) : value :=
  match a, b with
  | (VStr _ | VObj _), _ | _, (VStr _ | VObj _) =>
      VStr (to_string a +:+ to_string b)
  | _, _ =>
      match to_number a, to_number b with
      | Int x, Int y => VNum (Int (x + y))
      | _, _ => VNum NaN
      end
  end.

(** White space and line terminators, in the Latin-1 range: TAB, LF, VT,
    FF, CR, SP and NBSP. *)
Definition isWhiteSpace (c : ascii) : bool :=
  let n := Z.of_N (N_of_ascii c) in
  ((9 <=? n) && (n <=? 13)) || (n =? 32) || (n =? 160).

Fixpoint trimStart (s : string) : string :=
  match s with
  | EmptyString => EmptyString
  | String c s' => if isWhiteSpace c then trimStart s' else s
  end.

Fixpoint trimEnd (s : string) : string :=
  match s with
  | EmptyString => EmptyString
  | String c s' =>
      match trimEnd s' with
      | EmptyString => if isWhiteSpace c then EmptyString else String c EmptyString
      | t => String c t
      end
  end.

(** [String.prototype.trim] *)
Definition trim (s : string) : string := trimEnd (trimStart s).

(** The value of a digit or letter as a numeral digit. *)
Definition digitValue (c : ascii) : option Z :=
  let n := Z.of_N (N_of_ascii c) in
  if (48 <=? n) && (n <=? 57) then Some (n - 48)
  else if (97 <=? n) && (n <=? 122) then Some (n - 87)
  else if (65 <=? n) && (n <=? 90) then Some (n - 55)
  else None.

(** The longest prefix of radix-[R] digits, read most significant first;
    [acc] is [None] until a digit has been seen. *)
Fixpoint digits (R : Z) (s : string) (acc : option Z) : option Z :=
  match s with
  | EmptyString => acc
  | String c s' =>
      match digitValue c with
      | Some d => if d <? R then digits R s' (Some (R * default 0 acc + d)) else acc
      | None => acc
      end
  end.

(** [parseInt] of a string, called without a radix. *)
Definition parseIntString (inputString : string) : number :=
  let s0 := trimStart inputString in
  let '(sign, s1) :=
    match s0 with
    | String "-" r => (-1, r)
    | String "+" r => (1, r)
    | _ => (1, s0)
    end in
  let '(R, s2) :=
    match s1 with
    | String "0" (String x r) =>
        if (x =? "x")%char || (x =? "X")%char then (16, r) else (10, s1)
    | _ => (10, s1)
    end in
  match digits R s2 None with
  | None => NaN
  | Some mathInt => Int (sign * mathInt)
  end.

(** [parseInt(v)] *)
Definition parseInt (v : value) : number := parseIntString (to_string v).

(** [Array.prototype.includes] on an array of numbers. *)
Definition includes (l : list Z) (x : Z) : bool := existsb (Z.eqb x) l.

(** [Array.prototype.reduce] without an initial value: a [TypeError] on
    the empty array. *)
Definition reduce {A} (f : A -> A -> A) (l : list A) : Res A :=
  match l with
  | [] => Throw TypeError
  | x :: xs => Ok (fold_left f xs x)
  end.

(** [if (typeof data !== "object") data = {}] *)
Definition objectOrEmpty (data : value) : value :=
  if negb (typeof data =? "object")%string then VObj ∅ else data.

(** An object literal with the two properties of a lesson record. *)
Definition record (text level : value) : value :=
  VObj (<["text" := text]> (<["level" := level]> ∅)).

End JS.

(** ** The data the tool exchanges *)

(** [LessonConfig]: the tool's config from the editor, every property
    optional ([None] is a property that is not set). *)
Module Config.
Record t := mk {
  placeholder : option string;
  levels : option (list Z);
  defaultLevel : option Z;
}.
End Config.

(** [LessonData] as the class builds it: [text] is whatever [data.text]
    was when it was truthy, [level] always a number. *)
Module LessonData.
Record t := mk {
  text : JS.value;
  level : Z;
}.

(** The record as a JavaScript object, the way the editor hands a saved
    record back to the tool. *)
Definition to_value (d : t) : JS.value :=
  JS.record (text d) (JS.VNum (JS.Int (level d))).
End LessonData.

(** The [level] descriptor; its [svg] icon markup is never read by the
    class and is left out. *)
Record level := {
  number : Z;
  tag : string;
}.

(** What the class touches of an [HTMLElement]; [parentNode] tells whether
    the element has a parent. *)
Record Element := {
  tagName : string;
  innerHTML : string;
  classList : list string;
  dataset_placeholder : option string;
  contentEditable : string;
  parentNode : bool;
}.

(** The editor API the class calls. *)
Record API := {
  styles_block : string;
  i18n_t : string -> string;
}.

Inductive Warning := DefaultLevelNotFound.

(** An instance of the class, together with what it writes outside of
    itself: the popups it has appended to [document.body] and the warnings
    it has sent to the console. *)
Record Lessons := {
  api : API;
  readOnly : bool;
  _settings : Config.t;
  _data : LessonData.t;
  _element : option Element;
  popups : nat;
  console : list Warning;
}.

Definition with_data (d : LessonData.t) (s : Lessons) : Lessons :=
  {| api := api s; readOnly := readOnly s; _settings := _settings s;
     _data := d; _element := _element s;
     popups := popups s; console := console s |}.

Definition with_element (e : option Element) (s : Lessons) : Lessons :=
  {| api := api s; readOnly := readOnly s; _settings := _settings s;
     _data := _data s; _element := e;
     popups := popups s; console := console s |}.

Definition with_popup (s : Lessons) : Lessons :=
  {| api := api s; readOnly := readOnly s; _settings := _settings s;
     _data := _data s; _element := _element s;
     popups := S (popups s); console := console s |}.

Definition with_console (c : list Warning) (s : Lessons) : Lessons :=
  {| api := api s; readOnly := readOnly s; _settings := _settings s;
     _data := _data s; _element := _element s;
     popups := popups s; console := c |}.

Definition with_warning (w : Warning) (s : Lessons) : Lessons :=
  with_console (console s ++ [w]) s.

(** ** Methods run in a state-and-exception monad

    A method takes the instance and returns a value or throws, and the
    instance as it has left it (what was written before a throw stays
    written). *)

Definition M (A : Type) : Type := Lessons -> JS.Res A * Lessons.

#[export] Instance M_ret : MRet M := fun A a s => (JS.Ok a, s).

#[export] Instance M_bind : MBind M := fun A B f m s =>
  match m s with
  | (JS.Ok a, s') => f a s'
  | (JS.Throw e, s') => (JS.Throw e, s')
  end.

Definition this : M Lessons := fun s => (JS.Ok s, s).
Definition modify (f : Lessons -> Lessons) : M unit := fun s => (JS.Ok tt, f s).
Definition throw {A} (e : JS.Error) : M A := fun s => (JS.Throw e, s).
Definition lift {A} (r : JS.Res A) : M A := fun s => (r, s).

(** [document.createElement(tagName)] *)
Definition createElement (tagName : string) : Element :=
  {| tagName := tagName; innerHTML := ""; classList := [];
     dataset_placeholder := None; contentEditable := "inherit";
     parentNode := false |}.

Definition set_classList (l : list string) (e : Element) : Element :=
  {| tagName := tagName e; innerHTML := innerHTML e; classList := l;
     dataset_placeholder := dataset_placeholder e;
     contentEditable := contentEditable e; parentNode := parentNode e |}.

Definition set_placeholder (p : string) (e : Element) : Element :=
  {| tagName := tagName e; innerHTML := innerHTML e; classList := classList e;
     dataset_placeholder := Some p;
     contentEditable := contentEditable e; parentNode := parentNode e |}.

Definition set_contentEditable (c : string) (e : Element) : Element :=
  {| tagName := tagName e; innerHTML := innerHTML e; classList := classList e;
     dataset_placeholder := dataset_placeholder e;
     contentEditable := c; parentNode := parentNode e |}.

Definition set_parentNode (p : bool) (e : Element) : Element :=
  {| tagName := tagName e; innerHTML := innerHTML e; classList := classList e;
     dataset_placeholder := dataset_placeholder e;
     contentEditable := contentEditable e; parentNode := p |}.

(** The built-in descriptors of the [levels] getter. *)
Definition availableLevels : list level := [ {| number := 2; tag := "H2" |} ].

(** The descriptors [config] leaves available. *)
Definition levels_of (config : Config.t) : list level :=
  match Config.levels config with
  | Some l => List.filter (fun x => JS.includes l (number x)) availableLevels
  | None => availableLevels
  end.

(** Whether [config] leaves a descriptor available: [config.levels] is not
    set, or it includes 2. *)
Definition configured (config : Config.t) : bool :=
  match Config.levels config with
  | Some l => JS.includes l 2
  | None => true
  end.

(** The [switch] of [onPaste]: the level of a heading tag, [level]
    unchanged for any other tag. *)
Definition tagLevel (tagName : string) (level : Z) : Z :=
  if (tagName =? "H1")%string then 1
  else if (tagName =? "H2")%string then 2
  else if (tagName =? "H3")%string then 3
  else if (tagName =? "H4")%string then 4
  else if (tagName =? "H5")%string then 5
  else if (tagName =? "H6")%string then 6
  else level.

(** The callback [onPaste] reduces [config.levels] with. *)
Definition nearer (level prevLevel currLevel : Z) : Z :=
  if Z.abs (currLevel - level) <? Z.abs (prevLevel - level)
  then currLevel else prevLevel.

(** The nearest of [candidates] to [target], as [onPaste] computes it. *)
Definition nearest (target : Z) (candidates : list Z) : JS.Res Z :=
  JS.reduce (nearer target) candidates.

(** [static get pasteConfig()]: its [tags]. *)
Definition pasteConfig : list string := ["H2"].

(** [validate(blockData)]: [trim] is a method of strings only. *)
Definition validate (blockData : JS.value) : JS.Res bool :=
  match JS.prop blockData "text" with
  | JS.Ok (JS.VStr t) => JS.Ok (negb (JS.trim t =? "")%string)
  | _ => JS.Throw JS.TypeError
  end.

Section Tool.

(** What reading [innerHTML] returns after [innerHTML] was set to a string:
    the browser parses the string as a fragment and serialises it again. *)
Variable html : string -> string.

Definition set_innerHTML (v : string) (e : Element) : Element :=
  {| tagName := tagName e; innerHTML := html v; classList := classList e;
     dataset_placeholder := dataset_placeholder e;
     contentEditable := contentEditable e; parentNode := parentNode e |}.

(** [get levels()] *)
Definition levels : M (list level) :=
  s ← this;
  mret (levels_of (_settings s)).

(** [get defaultLevel()]: [undefined] ([None]) when [levels] is empty. *)
Definition defaultLevel : M (option level) :=
  s ← this;
  match Config.defaultLevel (_settings s) with
  | Some d =>
      if negb (d =? 0) then
        l ← levels;
        match List.find (fun levelItem => number levelItem =? d) l with
        | Some userSpecified => mret (Some userSpecified)
        | None =>
            modify (with_warning DefaultLevelNotFound);;
            l ← levels;
            mret (head l)
        end
      else l ← levels; mret (head l)
  | None => l ← levels; mret (head l)
  end.

(** [l.number] and [l.tag] on what may be [undefined]. *)
Definition number_of (l : option level) : M Z :=
  match l with
  | Some x => mret (number x)
  | None => throw JS.TypeError
  end.

Definition tag_of (l : option level) : M string :=
  match l with
  | Some x => mret (tag x)
  | None => throw JS.TypeError
  end.

(** [get currentLevel()] *)
Definition currentLevel : M (option level) :=
  l ← levels;
  s ← this;
  match List.find (fun levelItem => number levelItem =? LessonData.level (_data s)) l with
  | Some x => mret (Some x)
  | None => defaultLevel
  end.

(** [normalizeData(data)] *)
Definition normalizeData (data : JS.value) : M LessonData.t :=
  let data := JS.objectOrEmpty data in
  text ← lift (JS.prop data "text");
  let newText := JS.or text (JS.VStr "") in
  lvl ← lift (JS.prop data "level");
  newLevel ← match JS.parseInt lvl with
             | JS.Int z =>
                 if negb (z =? 0) then mret z
                 else (d ← defaultLevel; number_of d)
             | JS.NaN => d ← defaultLevel; number_of d
             end;
  mret (LessonData.mk newText newLevel).

(** [createPopUp()]: appends the popup to [document.body].  What its
    buttons do happens later, on a click, outside of the method's run. *)
Definition createPopUp : M unit := modify with_popup.

(** [getTag()] *)
Definition getTag : M Element :=
  s ← this;
  if negb (JS.truthy (LessonData.text (_data s))) then
    createPopUp;;
    mret (set_innerHTML "" (createElement "DIV"))
  else
    l ← currentLevel;
    t ← tag_of l;
    s ← this;
    let el := createElement t in
    let el := set_innerHTML
                (JS.to_string (JS.or (LessonData.text (_data s)) (JS.VStr ""))) el in
    let el := set_classList (classList el ++ ["ce-lesson"]) el in
    let el := set_placeholder
                (i18n_t (api s) (default "" (Config.placeholder (_settings s)))) el in
    let el := set_contentEditable (if readOnly s then "false" else "true") el in
    mret el.

(** [render()] *)
Definition render : M Element :=
  el ← getTag;
  modify (with_element (Some el));;
  mret el.

(** [this._element.x]: a [TypeError] while [_element] is [null]. *)
Definition the_element : M Element :=
  s ← this;
  match _element s with
  | Some el => mret el
  | None => throw JS.TypeError
  end.

(** [get data()] *)
Definition get_data : M LessonData.t :=
  el ← the_element;
  s ← this;
  modify (with_data (LessonData.mk (JS.VStr (innerHTML el)) (LessonData.level (_data s))));;
  l ← currentLevel;
  n ← number_of l;
  s ← this;
  modify (with_data (LessonData.mk (LessonData.text (_data s)) n));;
  s ← this;
  mret (_data s).

(** [set data(data)] *)
Definition set_data (data : JS.value) : M unit :=
  d ← normalizeData data;
  modify (with_data d);;
  lvl ← lift (JS.prop data "level");
  (if JS.defined lvl then
     el ← the_element;
     if parentNode el then
       newLesson ← getTag;
       el ← the_element;
       let newLesson := set_innerHTML (innerHTML el) newLesson in
       (* parentNode.replaceChild(newLesson, this._element) *)
       let newLesson := set_parentNode true newLesson in
       modify (with_element (Some newLesson))
     else mret tt
   else mret tt);;
  txt ← lift (JS.prop data "text");
  if JS.defined txt then
    el ← the_element;
    s ← this;
    modify (with_element (Some
      (set_innerHTML
         (JS.to_string (JS.or (LessonData.text (_data s)) (JS.VStr ""))) el)))
  else mret tt.

(** [merge(data)] *)
Definition merge (data : JS.value) : M unit :=
  d ← get_data;
  txt ← lift (JS.prop data "text");
  let text := JS.add (LessonData.text d) txt in
  d ← get_data;
  let newData := JS.record text (JS.VNum (JS.Int (LessonData.level d))) in
  set_data newData.

(** [save(toolsContent)] *)
Definition save (toolsContent : Element) : M LessonData.t :=
  let text := JS.trim (innerHTML toolsContent) in
  s ← this;
  let t := if (text =? "")%string then JS.VStr ""
           else JS.or (JS.VStr text) (LessonData.text (_data s)) in
  l ← currentLevel;
  n ← number_of l;
  mret (LessonData.mk t n).

(** The first half of [onPaste]: the level it passes on. *)
Definition pasteLevel (content : Element) : M Z :=
  d ← defaultLevel;
  n ← number_of d;
  let level := tagLevel (tagName content) n in
  s ← this;
  match Config.levels (_settings s) with
  | Some l => lift (nearest level l)
  | None => mret level
  end.

(** [onPaste(event)], with [content] for [event.detail.data]. *)
Definition onPaste (content : Element) : M unit :=
  level ← pasteLevel content;
  set_data (JS.record (JS.VStr (innerHTML content)) (JS.VNum (JS.Int level))).

(** The instance when the constructor body starts.  [_data] is not
    assigned yet while [normalizeData] runs, which does not read it. *)
Definition init (config : Config.t) (api : API) (readOnly : bool) : Lessons :=
  {| api := api; readOnly := readOnly; _settings := config;
     _data := LessonData.mk JS.VUndefined 0; _element := None;
     popups := O; console := [] |}.

(** [new Lessons({data, config, api, readOnly})] *)
Definition constructor (data : JS.value) (config : Config.t) (api : API)
    (readOnly : bool) : JS.Res unit * Lessons :=
  (d ← normalizeData data;
   modify (with_data d);;
   modify (with_element None)) (init config api readOnly).

(** Building a block from [data], rendering it, saving the rendered
    element and normalising what was saved, on one instance. *)
Definition roundTrip (data : JS.value) (config : Config.t) (api : API)
    (readOnly : bool) : JS.Res LessonData.t :=
  match constructor data config api readOnly with
  | (JS.Ok _, s) =>
      fst ((el ← render;
            saved ← save el;
            normalizeData (LessonData.to_value saved)) s)
  | (JS.Throw e, _) => JS.Throw e
  end.

End Tool.

(** ** The buttons of the popup *)

(** What a click handler asks of the editor:
    [api.blocks.delete(api.blocks.getCurrentBlockIndex())]. *)
Inductive HostCall := DeleteCurrentBlock.

(** [mainDiv.remove()] *)
Definition without_popup (s : Lessons) : Lessons :=
  {| api := api s; readOnly := readOnly s; _settings := _settings s;
     _data := _data s; _element := _element s;
     popups := pred (popups s); console := console s |}.

(** What [this.currentLevel] is as a value: the descriptor object (without
    its [svg], as in [level]) or [undefined]. *)
Definition level_value (l : option level) : JS.value :=
  match l with
  | Some x =>
      JS.VObj (<["number" := JS.VNum (JS.Int (number x))]>
                 (<["tag" := JS.VStr (tag x)]> ∅))
  | None => JS.VUndefined
  end.

Section Popup.

Variable html : string -> string.

(** The click handler of the OK button, with [inputValue] for
    [input.value]; it returns the calls it has made to the editor. *)
Definition okButton_click (inputValue : string) : M (list HostCall) :=
  if negb (inputValue =? "")%string then
    l ← currentLevel;
    set_data html (JS.record (JS.VStr inputValue) (level_value l));;
    modify without_popup;;
    mret []
  else
    modify without_popup;;
    mret [DeleteCurrentBlock].

(** The click handler of the Cancel button. *)
Definition cancelButton_click : M unit := modify without_popup.

End Popup.

(** ** Names used in the statements *)

(** The one built-in descriptor. *)
Definition levelH2 : level := {| number := 2; tag := "H2" |}.

(** The level [normalizeData] stores for [data.level] when a descriptor is
    available: what [parseInt] reads, or 2 when that is [NaN] or 0. *)
Definition normalLevel (lv : JS.value) : Z :=
  match JS.parseInt lv with
  | JS.Int z => if z =? 0 then 2 else z
  | JS.NaN => 2
  end.

(** The editor puts the rendered element into the block's wrapper. *)
Definition inserted (s : Lessons) : Lessons :=
  with_element (option_map (set_parentNode true) (_element s)) s.

(** The element [getTag] builds for a record with a text, with [content]
    as its content, and the bare element it builds for an empty text. *)
Definition lessonElement (s : Lessons) (content : string) (parent : bool) : Element :=
  {| tagName := "H2"; innerHTML := content; classList := ["ce-lesson"];
     dataset_placeholder :=
       Some (i18n_t (api s) (default "" (Config.placeholder (_settings s))));
     contentEditable := if readOnly s then "false" else "true";
     parentNode := parent |}.

Definition placeholderElement (content : string) (parent : bool) : Element :=
  {| tagName := "DIV"; innerHTML := content; classList := [];
     dataset_placeholder := None; contentEditable := "inherit";
     parentNode := parent |}.

(** A string of white space only. *)
Definition blank (s : string) : bool :=
  forallb JS.isWhiteSpace (list_ascii_of_string s).

(** ** Concrete blocks *)

(** Plain text is its own serialisation. *)
Definition plain (s : string) : string := s.

Definition host : API := {| styles_block := "cdx-block"; i18n_t := fun s => s |}.

(** A block built from [data], rendered and inserted. *)
Definition block (data : JS.value) (config : Config.t) : Lessons :=
  let s := snd (constructor data config host false) in
  inserted (snd (render plain s)).

Definition no_config : Config.t := Config.mk None None None.
Definition only_3 : Config.t := Config.mk None (Some [3]) None.
Definition levels_2_3 : Config.t := Config.mk None (Some [2; 3]) None.
Definition levels_2_4_default_3 : Config.t := Config.mk None (Some [2; 4]) (Some 3).

Definition hello_2 : JS.value := JS.record (JS.VStr "Hello") (JS.VNum (JS.Int 2)).
Definition hello_3 : JS.value := JS.record (JS.VStr "Hello") (JS.VNum (JS.Int 3)).
Definition x_3 : JS.value := JS.record (JS.VStr "x") (JS.VNum (JS.Int 3)).

(** The block of [{text: "Hello", level: 2}], and an empty block waiting
    for its title. *)
Definition hello : Lessons := block hello_2 no_config.
Definition pending : Lessons := block (JS.VObj ∅) levels_2_3.

Definition level_4 : gmap string JS.value :=
  <["level" := JS.VNum (JS.Int 4)]> ∅.
Definition world : gmap string JS.value := <["text" := JS.VStr " World"]> ∅.

Definition pasted_H1 : Element := set_innerHTML plain "Pasted" (createElement "H1").
Definition pasted_H2 : Element := set_innerHTML plain "Pasted" (createElement "H2").

(** Blocks that were built and not rendered yet. *)
Definition built : Lessons := snd (constructor hello_2 no_config host false).
Definition built_empty : Lessons := snd (constructor (JS.VObj ∅) no_config host false).

Definition level_5_bye : gmap string JS.value :=
  <["text" := JS.VStr "Bye"]> (<["level" := JS.VNum (JS.Int 5)]> ∅).




(** A configuration without 2 among its levels, and an empty block of
    level 3 built under it, rendered and inserted. *)
Definition levels_3_4 : Config.t := Config.mk None (Some [3; 4]) None.
Definition empty_3 : JS.value := JS.record (JS.VStr "") (JS.VNum (JS.Int 3)).
Definition pending_3_4 : Lessons := block empty_3 levels_3_4.

Definition padded_hello_2 : JS.value :=
  JS.record (JS.VStr " Hello") (JS.VNum (JS.Int 2)).

(** ** The model on the scenarios of the specification *)

Example parseInt_samples :
  map JS.parseInt
    [JS.VNum (JS.Int 2); JS.VStr " 42px"; JS.VStr "-0x1F"; JS.VStr "abc";
     JS.VUndefined; JS.VNull; JS.VObj ∅; JS.VNum (JS.Int (-7)); JS.VStr "+";
     JS.VStr "0"; JS.VStr "08"]
  = [JS.Int 2; JS.Int 42; JS.Int (-31); JS.NaN; JS.NaN; JS.NaN; JS.NaN;
     JS.Int (-7); JS.NaN; JS.Int 0; JS.Int 8].
Proof. vm_compute. reflexivity. Qed.

Example trim_samples :
  map JS.trim ["  a b  "; ""; "   "; "x"] = ["a b"; ""; ""; "x"].
Proof. reflexivity. Qed.

(** Scenario A: [{text: "Hello", level: 2}] renders as an [H2] holding
    "Hello". *)
Example scenario_A :
  _data hello = LessonData.mk (JS.VStr "Hello") 2
  /\ option_map tagName (_element hello) = Some "H2"
  /\ option_map innerHTML (_element hello) = Some "Hello"
  /\ option_map classList (_element hello) = Some ["ce-lesson"]
  /\ option_map contentEditable (_element hello) = Some "true".
Proof. vm_compute. repeat split. Qed.

(** Scenario B: default level 3 with levels [[2; 4]] falls back to 2, with
    a warning. *)
Example scenario_B :
  constructor (JS.VObj ∅) levels_2_4_default_3 host false
  = (JS.Ok tt,
     with_console [DefaultLevelNotFound]
       (with_data (LessonData.mk (JS.VStr "") 2)
          (init levels_2_4_default_3 host false))).
Proof. vm_compute. reflexivity. Qed.

(** Scenario D *)
Example scenario_D :
  validate (JS.record (JS.VStr "   ") JS.VUndefined) = JS.Ok false
  /\ validate (JS.record (JS.VStr "x") JS.VUndefined) = JS.Ok true.
Proof. vm_compute. split; reflexivity. Qed.

(** An empty block renders as a bare [DIV] and opens the popup. *)
Example scenario_E_pending :
  option_map tagName (_element pending) = Some "DIV"
  /\ popups pending = 1%nat.
Proof. vm_compute. split; reflexivity. Qed.

(** ** [parseInt] reads back the numeral of an integer *)

Ltac digit_step :=
  cbn [NilEmpty.string_of_uint JS.digits Pos.of_uint Pos.of_uint_acc];
  (change (JS.digitValue _) with (Some 0) ||
   change (JS.digitValue _) with (Some 1) ||
   change (JS.digitValue _) with (Some 2) ||
   change (JS.digitValue _) with (Some 3) ||
   change (JS.digitValue _) with (Some 4) ||
   change (JS.digitValue _) with (Some 5) ||
   change (JS.digitValue _) with (Some 6) ||
   change (JS.digitValue _) with (Some 7) ||
   change (JS.digitValue _) with (Some 8) ||
   change (JS.digitValue _) with (Some 9));
  cbn [Z.ltb Z.compare Pos.compare Pos.compare_cont default id].

Lemma digits_of_uint_acc (u : Decimal.uint) (acc : positive) :
  JS.digits 10 (NilEmpty.string_of_uint u) (Some (Z.pos acc))
  = Some (Z.pos (Pos.of_uint_acc u acc)).
Proof.
  revert acc; induction u; intros acc; [reflexivity | ..];
    digit_step; rewrite <- IHu; do 2 f_equal; lia.
Qed.

Lemma digits_of_uint (u : Decimal.uint) (acc : option Z) :
  default 0 acc = 0 -> u <> Decimal.Nil ->
  JS.digits 10 (NilEmpty.string_of_uint u) acc = Some (Z.of_N (Pos.of_uint u)).
Proof.
  revert acc; induction u; intros acc Hacc Hu; [congruence | ..];
    digit_step; rewrite Hacc; cbn [Z.mul Z.add];
    try apply digits_of_uint_acc.
  destruct u; [reflexivity | apply IHu; [reflexivity | discriminate] ..].
Qed.

Lemma parseIntString_uint (u : Decimal.uint) :
  u <> Decimal.Nil ->
  JS.parseIntString (NilEmpty.string_of_uint u) = JS.Int (Z.of_N (Pos.of_uint u))
  /\ JS.parseIntString (String "-" (NilEmpty.string_of_uint u))
     = JS.Int (- Z.of_N (Pos.of_uint u)).
Proof.
  intros Hu.
  assert (Hd := digits_of_uint u None eq_refl Hu).
  destruct u as [|u|u|u|u|u|u|u|u|u|u]; [congruence | ..].
  1: destruct u as [|u|u|u|u|u|u|u|u|u|u].
  all: unfold JS.parseIntString;
    cbn [NilEmpty.string_of_uint JS.trimStart];
    repeat match goal with
    | |- context [JS.isWhiteSpace ?c] =>
        change (JS.isWhiteSpace c) with false; cbv iota
    end.
  all: cbv beta iota zeta delta [Ascii.eqb Bool.eqb orb].
  all: cbn [NilEmpty.string_of_uint] in Hd; rewrite Hd.
  all: split; f_equal; lia.
Qed.

Lemma parseInt_Int (z : Z) : JS.parseInt (JS.VNum (JS.Int z)) = JS.Int z.
Proof.
  unfold JS.parseInt, JS.to_string.
  destruct z as [|p|p]; [reflexivity | ..]; cbn [Z.to_int NilZero.string_of_int];
    unfold NilZero.string_of_uint;
    pose proof (Unsigned.to_uint_nonnil p) as Hp;
    destruct (parseIntString_uint _ Hp) as [H1 H2];
    rewrite Unsigned.of_to in H1, H2;
    destruct (Pos.to_uint p); try congruence; assumption.
Qed.

Lemma normalLevel_Int n :
  normalLevel (JS.VNum (JS.Int n)) = if n =? 0 then 2 else n.
Proof. unfold normalLevel. rewrite parseInt_Int. reflexivity. Qed.

(** ** Values and records *)

Lemma or_VStr x : JS.or (JS.VStr x) (JS.VStr "") = JS.VStr x.
Proof. unfold JS.or; cbn. destruct (String.eqb_spec x ""); subst; reflexivity. Qed.

Lemma saved_text text stored :
  (if (text =? "")%string then JS.VStr "" else JS.or (JS.VStr text) stored)
  = JS.VStr text.
Proof.
  destruct (String.eqb_spec text "") as [->|H]; [reflexivity|].
  unfold JS.or; cbn. destruct (String.eqb_spec text ""); [congruence | reflexivity].
Qed.

Lemma record_text t l :
  default JS.VUndefined
    (<["text" := t]> (<["level" := l]> (∅ : gmap string JS.value)) !! "text") = t.
Proof. rewrite lookup_insert_eq. reflexivity. Qed.

Lemma record_level t l :
  default JS.VUndefined
    (<["text" := t]> (<["level" := l]> (∅ : gmap string JS.value)) !! "level") = l.
Proof.
  rewrite lookup_insert_ne by discriminate. rewrite lookup_insert_eq. reflexivity.
Qed.

Lemma prop_objectOrEmpty data k v k' :
  JS.prop (JS.objectOrEmpty data) k = JS.Ok v ->
  exists v', JS.prop (JS.objectOrEmpty data) k' = JS.Ok v'.
Proof. destruct data; cbn; intros H; try discriminate; eauto. Qed.


(** ** The level registry *)

Ltac unfold_M := unfold mbind, M_bind, mret, M_ret, this, modify, lift, throw.

Local Arguments JS.or : simpl never.
Local Arguments getTag : simpl never.

Lemma with_console_same s : with_console (console s) s = s.
Proof. destruct s; reflexivity. Qed.

Lemma levels_of_configured c :
  levels_of c = if configured c then availableLevels else [].
Proof.
  unfold levels_of, configured. destruct (Config.levels c) as [l|]; [|reflexivity].
  cbn. destruct (JS.includes l 2); reflexivity.
Qed.

Lemma configured_levels_of c : levels_of c = [] <-> configured c = false.
Proof.
  rewrite levels_of_configured. unfold availableLevels.
  destruct (configured c); split; intros; congruence.
Qed.

Lemma configured_includes l : JS.includes l 2 = true <-> In 2 l.
Proof.
  unfold JS.includes. rewrite existsb_exists. split.
  - intros (x & Hx & Heq). apply Z.eqb_eq in Heq. subst. exact Hx.
  - intros H. exists 2. split; [exact H | reflexivity].
Qed.

Lemma head_levels_of c :
  head (levels_of c) = if configured c then Some levelH2 else None.
Proof. rewrite levels_of_configured. destruct (configured c); reflexivity. Qed.

Lemma find_levels_of c n :
  List.find (fun levelItem => number levelItem =? n) (levels_of c)
  = if configured c && (2 =? n) then Some levelH2 else None.
Proof.
  rewrite levels_of_configured. destruct (configured c); [|reflexivity].
  cbn. destruct (2 =? n); reflexivity.
Qed.

Lemma available_level c n :
  JS.includes (map number (levels_of c)) n = true ->
  configured c = true /\ n = 2.
Proof.
  rewrite levels_of_configured. destruct (configured c); cbn; [|discriminate].
  rewrite orb_false_r. intros H. apply Z.eqb_eq in H. auto.
Qed.

(** [defaultLevel] and [currentLevel] return the first available
    descriptor, or [undefined]; they write to the console at most. *)
Lemma defaultLevel_run s :
  exists c, defaultLevel s
            = (JS.Ok (if configured (_settings s) then Some levelH2 else None),
               with_console c s).
Proof.
  unfold defaultLevel, levels. unfold_M.
  destruct (Config.defaultLevel (_settings s)) as [d|].
  - destruct (d =? 0); cbn [negb].
    + exists (console s). rewrite with_console_same, head_levels_of. reflexivity.
    + rewrite find_levels_of.
      destruct (configured (_settings s)) eqn:Hc; cbn [andb].
      * destruct (2 =? d).
        -- exists (console s). rewrite with_console_same. reflexivity.
        -- eexists. unfold with_warning. cbn. rewrite head_levels_of, Hc. reflexivity.
      * eexists. unfold with_warning. cbn. rewrite head_levels_of, Hc. reflexivity.
  - exists (console s). rewrite with_console_same, head_levels_of. reflexivity.
Qed.

Lemma currentLevel_run s :
  exists c, currentLevel s
            = (JS.Ok (if configured (_settings s) then Some levelH2 else None),
               with_console c s).
Proof.
  unfold currentLevel, levels. unfold_M. rewrite find_levels_of.
  destruct (configured (_settings s)) eqn:Hc; cbn [andb].
  - destruct (2 =? _).
    + exists (console s). rewrite with_console_same. reflexivity.
    + destruct (defaultLevel_run s) as [c ->]. rewrite Hc. eauto.
  - destruct (defaultLevel_run s) as [c ->]. rewrite Hc. eauto.
Qed.

(** The fold of [onPaste] keeps, at every step, the first of the nearest
    values met so far. *)
Lemma fold_nearer target xs : forall x,
  let r := fold_left (nearer target) xs x in
  (r = x /\ forall y, In y xs -> Z.abs (x - target) <= Z.abs (y - target))
  \/ (exists l1 l2,
        xs = (l1 ++ r :: l2)%list
        /\ Z.abs (r - target) < Z.abs (x - target)
        /\ (forall y, In y l1 -> Z.abs (r - target) < Z.abs (y - target))
        /\ (forall y, In y xs -> Z.abs (r - target) <= Z.abs (y - target))).
Proof.
  induction xs as [|y ys IH]; intros x; cbn [fold_left].
  - left. split; [reflexivity | intros y []].
  - specialize (IH (nearer target x y)). cbv zeta in *.
    set (r := fold_left (nearer target) ys (nearer target x y)) in *.
    unfold nearer in IH at 1 2 3.
    destruct (Z.ltb_spec (Z.abs (y - target)) (Z.abs (x - target))) as [Hlt|Hge].
    + right. destruct IH as [[Hr Hall] | (l1 & l2 & Hys & Hr & Hpre & Hall)].
      * exists [], ys. rewrite Hr. repeat split; try assumption.
        -- intros z [].
        -- intros z [<-|Hz]; [lia | auto].
      * exists (y :: l1), l2. rewrite Hys at 1. repeat split.
        -- lia.
        -- intros z [<-|Hz]; [lia | auto].
        -- intros z [<-|Hz]; [lia | auto].
    + destruct IH as [[Hr Hall] | (l1 & l2 & Hys & Hr & Hpre & Hall)].
      * left. split; [assumption|]. intros z [<-|Hz]; [lia | auto].
      * right. exists (y :: l1), l2. rewrite Hys at 1. repeat split.
        -- assumption.
        -- intros z [<-|Hz]; [lia | auto].
        -- intros z [<-|Hz]; [lia | auto].
Qed.

(** ** The methods, run *)

Section Runs.

Variable html : string -> string.

Lemma normalizeData_non_object data s :
  JS.typeof data <> "object" -> normalizeData data s = normalizeData (JS.VObj ∅) s.
Proof. destruct data; cbn; intros H; try congruence; reflexivity. Qed.

Lemma normalizeData_run data s t lv :
  JS.prop (JS.objectOrEmpty data) "text" = JS.Ok t ->
  JS.prop (JS.objectOrEmpty data) "level" = JS.Ok lv ->
  exists c,
    normalizeData data s
    = (if JS.truthy (JS.VNum (JS.parseInt lv)) || configured (_settings s)
       then JS.Ok (LessonData.mk (JS.or t (JS.VStr "")) (normalLevel lv))
       else JS.Throw JS.TypeError,
       with_console c s).
Proof.
  intros Ht Hl. unfold normalizeData, normalLevel. unfold_M. rewrite Ht, Hl.
  destruct (JS.parseInt lv) as [|z]; cbn [JS.truthy orb].
  - destruct (defaultLevel_run s) as [c ->]. exists c.
    destruct (configured (_settings s)); reflexivity.
  - destruct (z =? 0); cbn [negb orb].
    + destruct (defaultLevel_run s) as [c ->]. exists c.
      destruct (configured (_settings s)); reflexivity.
    + exists (console s). rewrite with_console_same. reflexivity.
Qed.

Lemma getTag_empty s :
  JS.truthy (LessonData.text (_data s)) = false ->
  getTag html s
  = (JS.Ok (set_innerHTML html "" (createElement "DIV")), with_popup s).
Proof. intros H. unfold getTag, createPopUp. unfold_M. rewrite H. reflexivity. Qed.

Lemma getTag_text s :
  JS.truthy (LessonData.text (_data s)) = true ->
  configured (_settings s) = true ->
  exists c el,
    getTag html s = (JS.Ok el, with_console c s)
    /\ tagName el = "H2"
    /\ innerHTML el = html (JS.to_string (LessonData.text (_data s)))
    /\ parentNode el = false.
Proof.
  intros H Hc. unfold getTag. unfold_M. rewrite H. cbn [negb].
  destruct (currentLevel_run s) as [c ->]. rewrite Hc. cbn.
  unfold JS.or. rewrite H. eauto 10.
Qed.

(** The setter when a text is passed: the record and the content follow
    the text; the element is rebuilt when a level is passed to an element
    that has a parent. *)
Lemma set_data_text o s el lv x :
  default JS.VUndefined (o !! "level") = lv ->
  default JS.VUndefined (o !! "text") = JS.VStr x ->
  _element s = Some el ->
  configured (_settings s) = true ->
  exists s' el',
    set_data html (JS.VObj o) s = (JS.Ok tt, s')
    /\ _settings s' = _settings s
    /\ _data s' = LessonData.mk (JS.VStr x) (normalLevel lv)
    /\ _element s' = Some el'
    /\ innerHTML el' = html x
    /\ parentNode el' = parentNode el
    /\ tagName el'
       = if JS.defined lv && parentNode el
         then if (x =? "")%string then "DIV" else "H2"
         else tagName el.
Proof.
  intros Hl Ht He Hc. unfold set_data.
  destruct (normalizeData_run (JS.VObj o) s (JS.VStr x) lv) as [c Hn].
  { cbn. congruence. } { cbn. congruence. }
  rewrite Hc, orb_true_r, or_VStr in Hn.
  unfold mbind at 1. unfold M_bind at 1. rewrite Hn.
  unfold_M. cbn [JS.prop]. rewrite Hl, Ht. cbn [JS.defined].
  unfold the_element. unfold_M.
  destruct (JS.defined lv); cbn [andb].
  2:{ cbn. rewrite He. cbn [LessonData.text _data with_data].
      rewrite or_VStr. cbn. eauto 10. }
  cbn. rewrite He.
  destruct (parentNode el) eqn:Hp.
  2:{ cbn. rewrite He. cbn [LessonData.text _data with_data].
      rewrite or_VStr. cbn. eauto 10. }
  destruct (String.eqb_spec x "") as [->|Hx].
  - rewrite getTag_empty by reflexivity. cbn. rewrite He. cbn. eauto 10.
  - match goal with |- context [getTag html ?s0] =>
      destruct (getTag_text s0) as (c' & el0 & -> & Htag & Hin & Hpar)
    end.
    { cbn. destruct (String.eqb_spec x ""); [congruence | reflexivity]. }
    { exact Hc. }
    cbn. rewrite He. cbn. rewrite or_VStr. cbn.
    destruct (String.eqb_spec x ""); [congruence|]. eauto 10.
Qed.


Lemma get_data_null s :
  _element s = None -> get_data s = (JS.Throw JS.TypeError, s).
Proof. intros H. unfold get_data, the_element. unfold_M. rewrite H. reflexivity. Qed.

Lemma get_data_run s el :
  _element s = Some el ->
  exists c,
    get_data s
    = if configured (_settings s)
      then let r := LessonData.mk (JS.VStr (innerHTML el)) 2 in
           (JS.Ok r, with_data r (with_console c s))
      else (JS.Throw JS.TypeError,
            with_data
              (LessonData.mk (JS.VStr (innerHTML el)) (LessonData.level (_data s)))
              (with_console c s)).
Proof.
  intros H. unfold get_data, the_element. unfold_M. rewrite H.
  match goal with |- context [currentLevel ?s0] =>
    destruct (currentLevel_run s0) as [c ->] end.
  exists c. cbn. destruct (configured (_settings s)); reflexivity.
Qed.

Lemma save_run toolsContent s :
  exists c,
    save toolsContent s
    = (if configured (_settings s)
       then JS.Ok (LessonData.mk (JS.VStr (JS.trim (innerHTML toolsContent))) 2)
       else JS.Throw JS.TypeError,
       with_console c s).
Proof.
  unfold save. unfold_M. rewrite saved_text.
  destruct (currentLevel_run s) as [c ->]. exists c.
  destruct (configured (_settings s)); reflexivity.
Qed.


Lemma pasteLevel_run content s :
  configured (_settings s) = true ->
  exists c,
    pasteLevel content s
    = (match Config.levels (_settings s) with
       | Some l => nearest (tagLevel (tagName content) 2) l
       | None => JS.Ok (tagLevel (tagName content) 2)
       end, with_console c s).
Proof.
  intros Hc. unfold pasteLevel. unfold_M.
  destruct (defaultLevel_run s) as [c ->]. rewrite Hc. cbn.
  exists c. destruct (Config.levels (_settings s)); reflexivity.
Qed.

Lemma constructor_run data config api0 ro t lv :
  JS.prop (JS.objectOrEmpty data) "text" = JS.Ok t ->
  JS.prop (JS.objectOrEmpty data) "level" = JS.Ok lv ->
  exists c,
    constructor data config api0 ro
    = if JS.truthy (JS.VNum (JS.parseInt lv)) || configured config
      then (JS.Ok tt,
            with_element None
              (with_data (LessonData.mk (JS.or t (JS.VStr "")) (normalLevel lv))
                 (with_console c (init config api0 ro))))
      else (JS.Throw JS.TypeError, with_console c (init config api0 ro)).
Proof.
  intros Ht Hl. unfold constructor.
  destruct (normalizeData_run data (init config api0 ro) t lv Ht Hl) as [c Hn].
  exists c. unfold mbind at 1. unfold M_bind at 1. rewrite Hn. cbn [init _settings].
  destruct (JS.truthy (JS.VNum (JS.parseInt lv)) || configured config); reflexivity.
Qed.

(** What [normalizeData] returns for every input but [null], once a
    descriptor is available: a missing or falsy text becomes the empty
    string, a level that does not parse to a non-zero integer becomes 2. *)
Lemma normalizeData_ok data s t lv :
  JS.prop (JS.objectOrEmpty data) "text" = JS.Ok t ->
  JS.prop (JS.objectOrEmpty data) "level" = JS.Ok lv ->
  configured (_settings s) = true ->
  exists c,
    normalizeData data s
    = (JS.Ok (LessonData.mk (JS.or t (JS.VStr "")) (normalLevel lv)),
       with_console c s).
Proof.
  intros Ht Hl Hc. destruct (normalizeData_run data s t lv Ht Hl) as [c H].
  exists c. now rewrite H, Hc, orb_true_r.
Qed.

(** ** The properties of the specification *)

(** C1: [normalizeData] does not return a record for [null]: [typeof null]
    is ["object"], so the guard that replaces a non-object input by [{}]
    lets [null] through and reading [data.text] throws a [TypeError], in
    every state of the instance; the constructor, which normalises its
    data, throws with it. *)
Theorem normalizeData_null_throws s config api0 ro :
  normalizeData JS.VNull s = (JS.Throw JS.TypeError, s)
  /\ fst (constructor JS.VNull config api0 ro) = JS.Throw JS.TypeError.
Proof. split; reflexivity. Qed.


(** C3, as the code has it: with a descriptor available, [save] returns the record
    whose text is the current content of the element it is given, trimmed
    of white space, and whose level is the number of the resolved current
    level.  The stored text is not used: an empty content is saved as the
    empty string. *)
Theorem save_trims_content s toolsContent :
  configured (_settings s) = true ->
  exists l,
    fst (currentLevel s) = JS.Ok (Some l)
    /\ fst (save toolsContent s)
       = JS.Ok (LessonData.mk (JS.VStr (JS.trim (innerHTML toolsContent)))
                  (number l)).
Proof.
  intros Hc. exists levelH2.
  destruct (currentLevel_run s) as [c ->]. destruct (save_run toolsContent s) as [c' ->].
  rewrite Hc. auto.
Qed.

(** C4, as the code has it: when [data.text] is a non-empty string [t] that an
    element gives back unchanged ([t] is its own serialisation and has no
    white space at its ends), and the level [normalizeData] stores for
    [data] is the number of an available descriptor, then building the
    block, rendering it, saving the rendered element and normalising the
    saved record returns what [normalizeData] returns for [data]. *)
Theorem roundTrip_preserves data config api0 ro t lv :
  JS.prop (JS.objectOrEmpty data) "text" = JS.Ok (JS.VStr t) ->
  t <> "" ->
  JS.trim (html t) = t ->
  JS.prop (JS.objectOrEmpty data) "level" = JS.Ok lv ->
  JS.includes (map number (levels_of config)) (normalLevel lv) = true ->
  roundTrip html data config api0 ro = fst (normalizeData data (init config api0 ro))
  /\ roundTrip html data config api0 ro
     = JS.Ok (LessonData.mk (JS.VStr t) (normalLevel lv)).
Proof.
  intros Ht Hne Htrim Hl Hav. apply available_level in Hav as [Hc Hn].
  destruct (normalizeData_run data (init config api0 ro) _ _ Ht Hl) as [c0 H0].
  cbn [init _settings] in H0. rewrite Hc, orb_true_r, or_VStr in H0.
  rewrite H0. cbn [fst].
  enough (roundTrip html data config api0 ro
          = JS.Ok (LessonData.mk (JS.VStr t) (normalLevel lv))) by (split; assumption).
  unfold roundTrip.
  destruct (constructor_run data config api0 ro _ _ Ht Hl) as [c1 H1].
  rewrite Hc, orb_true_r, or_VStr in H1. rewrite H1.
  unfold render. unfold mbind at 1. unfold M_bind at 1.
  unfold mbind at 1. unfold M_bind at 1.
  match goal with |- context [getTag html ?s0] =>
    destruct (getTag_text s0) as (c2 & el & -> & Htag & Hin & Hpar) end.
  { cbn. destruct (String.eqb_spec t ""); [congruence | reflexivity]. }
  { exact Hc. }
  cbn [LessonData.text _data with_element with_data JS.to_string] in Hin.
  unfold_M.
  match goal with |- context [save el ?s0] =>
    destruct (save_run el s0) as [c3 ->] end.
  cbn [_settings with_element with_data with_console init]. rewrite Hc, Hin, Htrim.
  match goal with |- context [normalizeData ?d ?s0] =>
    destruct (normalizeData_run d s0 (JS.VStr t) (JS.VNum (JS.Int 2))) as [c4 ->] end.
  { unfold LessonData.to_value, JS.record. cbn. now rewrite record_text. }
  { unfold LessonData.to_value, JS.record. cbn. now rewrite record_level. }
  rewrite parseInt_Int, or_VStr, normalLevel_Int, Hn. reflexivity.
Qed.

(** On a non-empty array the reduce of [onPaste] returns a member at
    minimal distance from the target, the first of them in the array. *)
Lemma reduce_nearer_first_minimal target c cs :
  let r := fold_left (nearer target) cs c in
  In r (c :: cs)
  /\ (forall y, In y (c :: cs) -> Z.abs (r - target) <= Z.abs (y - target))
  /\ exists l1 l2,
       c :: cs = (l1 ++ r :: l2)%list
       /\ forall y, In y l1 -> Z.abs (r - target) < Z.abs (y - target).
Proof.
  cbv zeta.
  destruct (fold_nearer target cs c) as [[Hr Hall] | (l1 & l2 & Hcs & Hr & Hpre & Hall)].
  - rewrite Hr. split; [left; reflexivity|]. split.
    + intros y [<-|Hy]; [lia | auto].
    + exists [], cs. split; [reflexivity | intros y []].
  - set (r := fold_left (nearer target) cs c) in *. split; [|split].
    + right. rewrite Hcs. apply in_or_app. right. left. reflexivity.
    + intros y [<-|Hy]; [lia | auto].
    + exists (c :: l1), l2. split; [rewrite Hcs at 1; reflexivity|].
      intros y [<-|Hy]; [lia | auto].
Qed.

(** C5, as the code has it: on a rendered block whose configuration
    leaves the [H2] descriptor available ([config.levels] is not set or
    contains 2), pasting an element whose tag is the [i]-th of [H1] ...
    [H6] maps the tag to the level number [i + 1]; when [config.levels] is
    given, that number is replaced by the member of [config.levels] at
    minimal distance from it, the first such member in the array.  The
    record stored has the pasted content as its text and that number [n]
    as its level (a number 0, which [normalizeData] takes for a missing
    level, is stored as the default 2). *)
Theorem onPaste_nearest_level s el content i :
  _element s = Some el ->
  configured (_settings s) = true ->
  nth_error ["H1"; "H2"; "H3"; "H4"; "H5"; "H6"] i = Some (tagName content) ->
  exists n s',
    match Config.levels (_settings s) with
    | Some l =>
        In n l
        /\ (forall y, In y l ->
              Z.abs (n - Z.of_nat (S i)) <= Z.abs (y - Z.of_nat (S i)))
        /\ exists l1 l2,
             l = (l1 ++ n :: l2)%list
             /\ forall y, In y l1 ->
                  Z.abs (n - Z.of_nat (S i)) < Z.abs (y - Z.of_nat (S i))
    | None => n = Z.of_nat (S i)
    end
    /\ fst (pasteLevel content s) = JS.Ok n
    /\ onPaste html content s = (JS.Ok tt, s')
    /\ _data s'
       = LessonData.mk (JS.VStr (innerHTML content)) (if n =? 0 then 2 else n).
Proof.
  intros He Hc Hi.
  assert (Htl : forall d, tagLevel (tagName content) d = Z.of_nat (S i)).
  { intros d. do 6 (destruct i as [|i]; [injection Hi as <-; reflexivity|]).
    destruct i; discriminate. }
  destruct (pasteLevel_run content s Hc) as [c Hp]. rewrite Htl in Hp.
  assert (exists n,
            match Config.levels (_settings s) with
            | Some l => nearest (Z.of_nat (S i)) l
            | None => JS.Ok (Z.of_nat (S i))
            end = JS.Ok n
            /\ match Config.levels (_settings s) with
               | Some l =>
                   In n l
                   /\ (forall y, In y l ->
                         Z.abs (n - Z.of_nat (S i)) <= Z.abs (y - Z.of_nat (S i)))
                   /\ exists l1 l2,
                        l = (l1 ++ n :: l2)%list
                        /\ forall y, In y l1 ->
                             Z.abs (n - Z.of_nat (S i)) < Z.abs (y - Z.of_nat (S i))
               | None => n = Z.of_nat (S i)
               end) as (n & Hn & Hspec).
  { unfold configured in Hc. destruct (Config.levels (_settings s)) as [[|y l]|].
    - discriminate.
    - eexists. split; [reflexivity|]. apply reduce_nearer_first_minimal.
    - eauto. }
  rewrite Hn in Hp.
  destruct (set_data_text
              (<["text" := JS.VStr (innerHTML content)]>
                 (<["level" := JS.VNum (JS.Int n)]> ∅))
              (with_console c s) el (JS.VNum (JS.Int n)) (innerHTML content))
    as (s' & el' & Hs & _ & Hdata & _).
  { apply record_level. } { apply record_text. } { exact He. } { exact Hc. }
  exists n, s'. split; [exact Hspec|]. split; [|split].
  - rewrite Hp. reflexivity.
  - unfold onPaste. unfold mbind at 1. unfold M_bind at 1. rewrite Hp. exact Hs.
  - rewrite Hdata, normalLevel_Int. reflexivity.
Qed.

(** C6: on a non-empty sequence of candidates the reduce of [onPaste]
    returns a candidate [r] whose distance to the target is minimal among
    the candidates, and every candidate that stands before [r] in the
    sequence is strictly farther from the target: among equidistant
    candidates the earliest is returned. *)
Theorem nearest_minimal_first (target c : Z) (cs : list Z) :
  exists r,
    nearest target (c :: cs) = JS.Ok r
    /\ In r (c :: cs)
    /\ (forall y, In y (c :: cs) -> Z.abs (r - target) <= Z.abs (y - target))
    /\ exists l1 l2,
         c :: cs = (l1 ++ r :: l2)%list
         /\ forall y, In y l1 -> Z.abs (r - target) < Z.abs (y - target).
Proof.
  exists (fold_left (nearer target) cs c). split; [reflexivity|].
  destruct (fold_nearer target cs c) as [[Hr Hall] | (l1 & l2 & Hcs & Hr & Hpre & Hall)].
  - rewrite Hr. split; [left; reflexivity|]. split.
    + intros y [<-|Hy]; [lia | auto].
    + exists [], cs. split; [reflexivity | intros y []].
  - set (r := fold_left (nearer target) cs c) in *. split.
    + right. rewrite Hcs. apply in_or_app. right. left. reflexivity.
    + split.
      * intros y [<-|Hy]; [lia | auto].
      * exists (c :: l1), l2. split; [rewrite Hcs at 1; reflexivity|].
        intros y [<-|Hy]; [lia | auto].
Qed.


(** C8, as the code has it: when [config] leaves no descriptor available,
    [defaultLevel] signals nothing and returns [undefined].  The
    constructor, given data whose [level] can be read, then throws a
    [TypeError] exactly when [parseInt(data.level)] is [NaN] or 0, that is
    when [normalizeData] reads the [number] of the default level; with any
    other level it returns. *)
Theorem empty_levels_no_error data config api0 ro lv :
  levels_of config = [] ->
  JS.prop (JS.objectOrEmpty data) "level" = JS.Ok lv ->
  (forall s, _settings s = config -> fst (defaultLevel s) = JS.Ok None)
  /\ fst (constructor data config api0 ro)
     = if JS.truthy (JS.VNum (JS.parseInt lv)) then JS.Ok tt
       else JS.Throw JS.TypeError.
Proof.
  intros Hempty Hl. apply configured_levels_of in Hempty. split.
  - intros s <-. destruct (defaultLevel_run s) as [c ->]. now rewrite Hempty.
  - destruct (prop_objectOrEmpty data "level" lv "text" Hl) as [t Ht].
    destruct (constructor_run data config api0 ro t lv Ht Hl) as [c ->].
    rewrite Hempty, orb_false_r.
    destruct (JS.truthy (JS.VNum (JS.parseInt lv))); reflexivity.
Qed.

(** C9, as the code has it: the [data] getter returns the up-to-date record, the
    content of the element and the number of the resolved level, which it
    also stores, in every state where an element has been rendered and a
    descriptor is available; while [_element] is [null] it throws a
    [TypeError]. *)
Theorem get_data_needs_element s :
  fst (get_data s)
  = match _element s with
    | Some el =>
        if configured (_settings s)
        then JS.Ok (LessonData.mk (JS.VStr (innerHTML el)) 2)
        else JS.Throw JS.TypeError
    | None => JS.Throw JS.TypeError
    end
  /\ (forall r, fst (get_data s) = JS.Ok r ->
        _data (snd (get_data s)) = r
        /\ fst (currentLevel s)
           = JS.Ok (Some {| number := LessonData.level r; tag := "H2" |})).
Proof.
  destruct (_element s) as [el|] eqn:He.
  - destruct (get_data_run s el He) as [c ->]. destruct (currentLevel_run s) as [c' ->].
    destruct (configured (_settings s)); cbn; split; try reflexivity.
    + intros r [= <-]. auto.
    + intros r [=].
  - rewrite (get_data_null s He). cbn. split; [reflexivity | intros r [=]].
Qed.

(** C10: for every configuration the [levels] getter returns the [H2]
    descriptor alone, or nothing; it returns it exactly when
    [config.levels] is not set or contains 2.  [currentLevel] therefore
    returns the [H2] descriptor whenever a level is available, whatever
    the stored level, and the tags of [pasteConfig] are ["H2"] alone. *)
Theorem levels_only_H2 s :
  levels s = (JS.Ok (if configured (_settings s) then [levelH2] else []), s)
  /\ (configured (_settings s) = true
      <-> Config.levels (_settings s) = None
          \/ exists l, Config.levels (_settings s) = Some l /\ In 2 l)
  /\ fst (currentLevel s)
     = JS.Ok (if configured (_settings s) then Some levelH2 else None)
  /\ pasteConfig = ["H2"].
Proof.
  split; [|split; [|split]].
  - unfold levels. unfold_M. now rewrite levels_of_configured.
  - unfold configured. destruct (Config.levels (_settings s)) as [l|].
    + rewrite configured_includes. split.
      * intros H. right. eauto.
      * intros [H | (l' & [= <-] & H)]; [discriminate | exact H].
    + split; auto.
  - destruct (currentLevel_run s) as [c ->]. reflexivity.
  - reflexivity.
Qed.

End Runs.

(** ** The properties on concrete blocks *)



(** The "Hello" block saves an element whose content was cleared with the
    empty text, not with the stored "Hello". *)
Lemma cleared_element_saves_empty_text :
  exists el,
    _element hello = Some el
    /\ LessonData.text (_data hello) = JS.VStr "Hello"
    /\ fst (save (set_innerHTML plain "" el) hello)
       = JS.Ok (LessonData.mk (JS.VStr "") 2)
    /\ JS.VStr "" <> LessonData.text (_data hello).
Proof. vm_compute. eexists. repeat split. discriminate. Qed.

Lemma save_trims_content_witness :
  exists l,
    fst (currentLevel hello) = JS.Ok (Some l)
    /\ fst (save (createElement "H2") hello)
       = JS.Ok (LessonData.mk
                  (JS.VStr (JS.trim (innerHTML (createElement "H2")))) (number l)).
Proof. apply (save_trims_content hello (createElement "H2")). reflexivity. Defined.

(** [{text: "Hello", level: 3}] is normalised to level 3 and comes back
    from the round trip with level 2. *)
Lemma level_3_round_trip_differs :
  fst (normalizeData hello_3 (init no_config host false))
  = JS.Ok (LessonData.mk (JS.VStr "Hello") 3)
  /\ roundTrip plain hello_3 no_config host false
     = JS.Ok (LessonData.mk (JS.VStr "Hello") 2)
  /\ roundTrip plain hello_3 no_config host false
     <> fst (normalizeData hello_3 (init no_config host false)).
Proof. vm_compute. repeat split. discriminate. Qed.

Lemma roundTrip_preserves_witness :
  roundTrip plain hello_2 no_config host false
  = fst (normalizeData hello_2 (init no_config host false))
  /\ roundTrip plain hello_2 no_config host false
     = JS.Ok (LessonData.mk (JS.VStr "Hello") (normalLevel (JS.VNum (JS.Int 2)))).
Proof.
  apply (roundTrip_preserves plain hello_2 no_config host false "Hello"
           (JS.VNum (JS.Int 2)));
    first [reflexivity | discriminate].
Defined.

(** Scenario C: pasting an [H1] into a block configured with levels
    [[2; 3]] stores level 2 and the pasted content. *)
Lemma onPaste_nearest_level_witness :
  exists s',
    onPaste plain pasted_H1 pending = (JS.Ok tt, s')
    /\ _data s' = LessonData.mk (JS.VStr "Pasted") 2.
Proof.
  destruct (onPaste_nearest_level plain pending
              (set_parentNode true (set_innerHTML plain "" (createElement "DIV")))
              pasted_H1 0 eq_refl eq_refl eq_refl)
    as (n & s' & (Hin & Hmin & _) & _ & Hs & Hd).
  exists s'. split; [exact Hs|].
  assert (Hn : n = 2).
  { specialize (Hmin 2 (or_introl eq_refl)). simpl in Hin, Hmin. lia. }
  rewrite Hn in Hd. exact Hd.
Defined.

(** With levels [[3; 4]] an empty block of level 3 is built and rendered,
    and 3 is the nearest of the levels to 1; pasting an [H1] into it throws
    a [TypeError] and stores nothing. *)
Lemma paste_without_H2_throws :
  fst (constructor empty_3 levels_3_4 host false) = JS.Ok tt
  /\ option_map tagName (_element pending_3_4) = Some "DIV"
  /\ nearest 1 [3; 4] = JS.Ok 3
  /\ fst (onPaste plain pasted_H1 pending_3_4) = JS.Throw JS.TypeError
  /\ _data (snd (onPaste plain pasted_H1 pending_3_4)) = LessonData.mk (JS.VStr "") 3.
Proof. vm_compute. repeat split. Qed.



(** [{text: " Hello", level: 2}] comes back from the round trip without
    the space at its start. *)
Lemma padded_text_round_trip_differs :
  fst (normalizeData padded_hello_2 (init no_config host false))
  = JS.Ok (LessonData.mk (JS.VStr " Hello") 2)
  /\ roundTrip plain padded_hello_2 no_config host false
     = JS.Ok (LessonData.mk (JS.VStr "Hello") 2).
Proof. vm_compute. split; reflexivity. Qed.

(** With levels [[3]] no descriptor is available: [defaultLevel] returns
    [undefined] without an error, and a block with level 3 is built. *)
Lemma empty_levels_construct :
  defaultLevel (init only_3 host false) = (JS.Ok None, init only_3 host false)
  /\ levels_of only_3 = []
  /\ fst (constructor x_3 only_3 host false) = JS.Ok tt.
Proof. vm_compute. repeat split. Qed.

Lemma empty_levels_no_error_witness :
  (forall s, _settings s = only_3 -> fst (defaultLevel s) = JS.Ok None)
  /\ fst (constructor (JS.VObj ∅) only_3 host false) = JS.Throw JS.TypeError.
Proof.
  apply (empty_levels_no_error (JS.VObj ∅) only_3 host false JS.VUndefined);
    reflexivity.
Defined.

(** The [data] getter throws on a block that was built and not rendered. *)
Lemma get_data_before_render_throws :
  _element (snd (constructor hello_2 no_config host false)) = None
  /\ fst (get_data (snd (constructor hello_2 no_config host false)))
     = JS.Throw JS.TypeError.
Proof. vm_compute. split; reflexivity. Qed.

(** * Further properties of the class *)

(** ** White space *)

Lemma trimStart_head s :
  match JS.trimStart s with
  | EmptyString => blank s = true
  | String c _ => JS.isWhiteSpace c = false /\ blank s = false
  end.
Proof.
  induction s as [|c s IH]; cbn [JS.trimStart]; [reflexivity|].
  unfold blank in *. cbn [list_ascii_of_string forallb].
  destruct (JS.isWhiteSpace c) eqn:Hc; cbn [andb]; [exact IH | auto].
Qed.

Lemma trimEnd_head c s :
  JS.isWhiteSpace c = false -> exists t, JS.trimEnd (String c s) = String c t.
Proof.
  intros Hc. cbn [JS.trimEnd]. destruct (JS.trimEnd s); rewrite ?Hc; eauto.
Qed.

Lemma trimEnd_idem s : JS.trimEnd (JS.trimEnd s) = JS.trimEnd s.
Proof.
  induction s as [|c s IH]; [reflexivity|]. cbn [JS.trimEnd].
  destruct (JS.trimEnd s) as [|d t] eqn:Ht.
  - destruct (JS.isWhiteSpace c) eqn:Hc; [reflexivity|].
    cbn [JS.trimEnd]. now rewrite Hc.
  - change (JS.trimEnd (String c (String d t))) with
      (match JS.trimEnd (String d t) with
       | EmptyString => if JS.isWhiteSpace c then EmptyString else String c EmptyString
       | u => String c u end).
    rewrite IH. reflexivity.
Qed.

Lemma trim_blank s : (JS.trim s =? "")%string = blank s.
Proof.
  unfold JS.trim. pose proof (trimStart_head s) as H.
  destruct (JS.trimStart s) as [|c r].
  - now rewrite H.
  - destruct H as [Hc ->]. destruct (trimEnd_head c r Hc) as [t ->]. reflexivity.
Qed.

Lemma trim_idem s : JS.trim (JS.trim s) = JS.trim s.
Proof.
  unfold JS.trim. pose proof (trimStart_head s) as H.
  destruct (JS.trimStart s) as [|c r]; [reflexivity|].
  destruct H as [Hc _]. destruct (trimEnd_head c r Hc) as [t Ht].
  rewrite Ht. cbn [JS.trimStart]. rewrite Hc, <- Ht. apply trimEnd_idem.
Qed.

(** ** Values, levels and the nearest candidate *)

Lemma add_VStr x v : JS.add (JS.VStr x) v = JS.VStr (x +:+ JS.to_string v).
Proof. destruct v; reflexivity. Qed.

Lemma normalLevel_level_value l : normalLevel (level_value (Some l)) = 2.
Proof. reflexivity. Qed.

Lemma eqb_empty_false x : x <> "" -> (x =? "")%string = false.
Proof. intros H. destruct (String.eqb_spec x ""); congruence. Qed.

Lemma normalLevel_nonzero lv : normalLevel lv <> 0.
Proof.
  unfold normalLevel. destruct (JS.parseInt lv) as [|z]; [discriminate|].
  destruct (Z.eqb_spec z 0); [discriminate | assumption].
Qed.

Lemma or_idem t : JS.or (JS.or t (JS.VStr "")) (JS.VStr "") = JS.or t (JS.VStr "").
Proof. unfold JS.or. destruct (JS.truthy t) eqn:H; [now rewrite H | reflexivity]. Qed.

Lemma prop_non_null data k :
  data <> JS.VNull -> exists v, JS.prop (JS.objectOrEmpty data) k = JS.Ok v.
Proof. destruct data; cbn; intros H; try congruence; eauto. Qed.

Lemma fold_nearer_member target cs c :
  In target (c :: cs) -> fold_left (nearer target) cs c = target.
Proof.
  intros Hin.
  destruct (fold_nearer target cs c) as [[Hr Hall] | (l1 & l2 & Hcs & Hr & Hpre & Hall)].
  - rewrite Hr. destruct Hin as [->|Hin]; [reflexivity|].
    specialize (Hall _ Hin). lia.
  - set (r := fold_left (nearer target) cs c) in *.
    destruct Hin as [->|Hin]; [lia|]. specialize (Hall _ Hin). lia.
Qed.

(** ** The methods in full *)

Section Further.

Variable html : string -> string.

Lemma getTag_element s :
  JS.truthy (LessonData.text (_data s)) = true ->
  configured (_settings s) = true ->
  exists c,
    getTag html s
    = (JS.Ok (lessonElement s (html (JS.to_string (LessonData.text (_data s)))) false),
       with_console c s).
Proof.
  intros H Hc. unfold getTag. unfold_M. rewrite H. cbn [negb].
  destruct (currentLevel_run s) as [c ->]. rewrite Hc. cbn.
  unfold JS.or. rewrite H. eauto.
Qed.

Lemma getTag_unconfigured s :
  JS.truthy (LessonData.text (_data s)) = true ->
  configured (_settings s) = false ->
  exists c, getTag html s = (JS.Throw JS.TypeError, with_console c s).
Proof.
  intros H Hc. unfold getTag. unfold_M. rewrite H. cbn [negb].
  destruct (currentLevel_run s) as [c ->]. rewrite Hc. cbn. eauto.
Qed.

(** The setter in full when a text is passed. *)
Lemma set_data_element o s el lv x :
  default JS.VUndefined (o !! "level") = lv ->
  default JS.VUndefined (o !! "text") = JS.VStr x ->
  _element s = Some el ->
  configured (_settings s) = true ->
  exists s',
    set_data html (JS.VObj o) s = (JS.Ok tt, s')
    /\ _settings s' = _settings s
    /\ api s' = api s
    /\ readOnly s' = readOnly s
    /\ _data s' = LessonData.mk (JS.VStr x) (normalLevel lv)
    /\ _element s'
       = Some (if JS.defined lv && parentNode el
               then if (x =? "")%string then placeholderElement (html "") true
                    else lessonElement s (html x) true
               else set_innerHTML html x el)
    /\ popups s'
       = if JS.defined lv && parentNode el && (x =? "")%string
         then S (popups s) else popups s.
Proof.
  intros Hl Ht He Hc. unfold set_data.
  destruct (normalizeData_run (JS.VObj o) s (JS.VStr x) lv) as [c Hn].
  { cbn. congruence. } { cbn. congruence. }
  rewrite Hc, orb_true_r, or_VStr in Hn.
  unfold mbind at 1. unfold M_bind at 1. rewrite Hn.
  unfold_M. cbn [JS.prop]. rewrite Hl, Ht. cbn [JS.defined].
  unfold the_element. unfold_M.
  destruct (JS.defined lv); cbn [andb].
  2:{ cbn. rewrite He. cbn [LessonData.text _data with_data].
      rewrite or_VStr. cbn. eauto 10. }
  cbn. rewrite He.
  destruct (parentNode el) eqn:Hp.
  2:{ cbn. rewrite He. cbn [LessonData.text _data with_data].
      rewrite or_VStr. cbn. eauto 10. }
  destruct (String.eqb_spec x "") as [->|Hx].
  - rewrite getTag_empty by reflexivity. cbn. rewrite He. cbn. eauto 10.
  - match goal with |- context [getTag html ?s0] =>
      destruct (getTag_element s0) as [c' ->]
    end.
    { cbn. destruct (String.eqb_spec x ""); [congruence | reflexivity]. }
    { exact Hc. }
    cbn. rewrite He. cbn. rewrite or_VStr. cbn.
    eexists. repeat split.
Qed.

Lemma pasteLevel_unconfigured content s :
  configured (_settings s) = false ->
  exists c, pasteLevel content s = (JS.Throw JS.TypeError, with_console c s).
Proof.
  intros Hc. unfold pasteLevel. unfold_M.
  destruct (defaultLevel_run s) as [c ->]. rewrite Hc. cbn. eauto.
Qed.

Lemma merge_element data s el v :
  JS.prop data "text" = JS.Ok v ->
  _element s = Some el ->
  configured (_settings s) = true ->
  exists s',
    merge html data s = (JS.Ok tt, s')
    /\ _data s' = LessonData.mk (JS.VStr (innerHTML el +:+ JS.to_string v)) 2
    /\ _element s'
       = Some (if parentNode el
               then if (innerHTML el +:+ JS.to_string v =? "")%string
                    then placeholderElement (html "") true
                    else lessonElement s (html (innerHTML el +:+ JS.to_string v)) true
               else set_innerHTML html (innerHTML el +:+ JS.to_string v) el)
    /\ popups s'
       = if parentNode el && (innerHTML el +:+ JS.to_string v =? "")%string
         then S (popups s) else popups s.
Proof.
  intros Ht He Hc. unfold merge.
  destruct (get_data_run s el He) as [c1 H1]. rewrite Hc in H1. cbv zeta in H1.
  unfold mbind at 1. unfold M_bind at 1. rewrite H1.
  unfold lift at 1. unfold mbind at 1. unfold M_bind at 1. rewrite Ht.
  unfold mbind at 1. unfold M_bind at 1.
  match goal with |- context [get_data ?s0] =>
    destruct (get_data_run s0 el He) as [c2 H2] end.
  cbn [_settings with_data with_console] in H2. rewrite Hc in H2. cbv zeta in H2.
  rewrite H2.
  cbn [LessonData.text LessonData.level]. rewrite add_VStr.
  match goal with |- context [set_data html (JS.record ?t ?l) ?s0] =>
    destruct (set_data_element (<["text" := t]> (<["level" := l]> ∅)) s0 el l
                (innerHTML el +:+ JS.to_string v))
      as (s' & Hs & _ & _ & _ & Hdata & Hel & Hpop)
  end.
  { apply record_level. } { apply record_text. } { exact He. } { exact Hc. }
  unfold JS.record. rewrite Hs. exists s'.
  rewrite Hdata, normalLevel_Int. cbn in Hel, Hpop. auto.
Qed.

(** X1: [validate] returns [false] exactly when the text of the record is
    empty or white space only, [true] for any other string, and throws a
    [TypeError] when the record has no string under [text]. *)
Theorem validate_rejects_blank blockData :
  validate blockData
  = match JS.prop blockData "text" with
    | JS.Ok (JS.VStr t) => JS.Ok (negb (blank t))
    | _ => JS.Throw JS.TypeError
    end.
Proof.
  unfold validate. destruct (JS.prop blockData "text") as [[| | | |t|]|]; try reflexivity.
  now rewrite trim_blank.
Qed.

(** X2: with a descriptor available, the record that [save] returns for
    an element passes [validate] exactly when the content of the element
    is not blank. *)
Theorem save_then_validate s toolsContent :
  configured (_settings s) = true ->
  exists r,
    fst (save toolsContent s) = JS.Ok r
    /\ validate (LessonData.to_value r) = JS.Ok (negb (blank (innerHTML toolsContent))).
Proof.
  intros Hc. destruct (save_run toolsContent s) as [c ->]. rewrite Hc.
  eexists. split; [reflexivity|].
  unfold validate, LessonData.to_value, JS.record. cbn [JS.prop LessonData.text].
  rewrite record_text, trim_idem, trim_blank. reflexivity.
Qed.

(** X3: what [save] returns does not depend on the record or the element
    the instance holds, only on the element it is given and on the
    configuration; [save] writes nothing but the console. *)
Theorem save_reads_only_content s toolsContent d e :
  fst (save toolsContent (with_data d (with_element e s)))
  = fst (save toolsContent s)
  /\ exists c, snd (save toolsContent s) = with_console c s.
Proof.
  split.
  - destruct (save_run toolsContent s) as [c ->].
    match goal with |- context [save toolsContent ?s0] =>
      destruct (save_run toolsContent s0) as [c' ->] end.
    reflexivity.
  - destruct (save_run toolsContent s) as [c ->]. eauto.
Qed.

(** X4: saving an element that holds the text [save] returned (a text
    the element gives back unchanged) returns the same record again. *)
Theorem save_idempotent s toolsContent other :
  html (JS.trim (innerHTML toolsContent)) = JS.trim (innerHTML toolsContent) ->
  fst (save (set_innerHTML html (JS.trim (innerHTML toolsContent)) other) s)
  = fst (save toolsContent s).
Proof.
  intros Hh. destruct (save_run toolsContent s) as [c ->].
  match goal with |- context [save ?e s] => destruct (save_run e s) as [c' ->] end.
  cbn [fst set_innerHTML innerHTML]. rewrite Hh, trim_idem. reflexivity.
Qed.

(** X5: for a record with a truthy text and a descriptor available,
    [render] returns, for every stored level, an [H2] that holds the text,
    carries the class [ce-lesson] and the translated placeholder, is
    editable unless the block is read-only and has no parent yet; it
    stores that element and opens no popup. *)
Theorem render_text_element s :
  JS.truthy (LessonData.text (_data s)) = true ->
  configured (_settings s) = true ->
  exists c,
    render html s
    = (let el := lessonElement s (html (JS.to_string (LessonData.text (_data s)))) false in
       (JS.Ok el, with_element (Some el) (with_console c s))).
Proof.
  intros H Hc. unfold render. unfold_M.
  destruct (getTag_element s H Hc) as [c ->]. eauto.
Qed.

(** X6: on a record with an empty text every [render] returns a bare
    [DIV] and opens one more popup, whatever the configuration: after [n]
    renders [n] popups are open and the record is unchanged. *)
Theorem render_empty_opens_popup_each_time s n :
  JS.truthy (LessonData.text (_data s)) = false ->
  let s' := Nat.iter n (fun x => snd (render html x)) s in
  render html s'
  = (JS.Ok (placeholderElement (html "") false),
     with_element (Some (placeholderElement (html "") false)) (with_popup s'))
  /\ popups s' = (n + popups s)%nat
  /\ _data s' = _data s.
Proof.
  intros H. cbv zeta.
  assert (Hs : forall x, JS.truthy (LessonData.text (_data x)) = false ->
    render html x
    = (JS.Ok (placeholderElement (html "") false),
       with_element (Some (placeholderElement (html "") false)) (with_popup x))).
  { intros x Hx. unfold render. unfold_M. rewrite getTag_empty by exact Hx. reflexivity. }
  induction n as [|n IH].
  - split; [apply Hs, H | split; reflexivity].
  - destruct IH as (Hr & Hp & Hd). rewrite Nat.iter_succ. cbv beta.
    rewrite Hr. cbn [snd].
    split; [|split].
    + apply Hs. cbn. rewrite Hd. exact H.
    + cbn. rewrite Hp. reflexivity.
    + cbn. exact Hd.
Qed.

(** X7: when the configuration leaves no descriptor available, a block
    whose data has a truthy text and a level that parses to a non-zero
    integer is built without error, and its first [render] throws a
    [TypeError], leaving [_element] [null]. *)
Theorem render_without_level_throws data config api0 ro t lv :
  levels_of config = [] ->
  JS.prop (JS.objectOrEmpty data) "text" = JS.Ok t ->
  JS.truthy t = true ->
  JS.prop (JS.objectOrEmpty data) "level" = JS.Ok lv ->
  JS.truthy (JS.VNum (JS.parseInt lv)) = true ->
  fst (constructor data config api0 ro) = JS.Ok tt
  /\ fst (render html (snd (constructor data config api0 ro))) = JS.Throw JS.TypeError
  /\ _element (snd (render html (snd (constructor data config api0 ro)))) = None.
Proof.
  intros He Ht Htr Hl Hp. apply configured_levels_of in He.
  destruct (constructor_run data config api0 ro t lv Ht Hl) as [c ->].
  rewrite Hp. cbn [orb fst snd]. split; [reflexivity|].
  unfold render. unfold_M.
  match goal with |- context [getTag html ?s0] =>
    destruct (getTag_unconfigured s0) as [c' ->] end.
  - cbn. unfold JS.or. now rewrite Htr.
  - exact He.
  - split; reflexivity.
Qed.

(** X8: [defaultLevel] returns the [H2] descriptor when it is available
    and [undefined] otherwise; it changes nothing but the console, where it
    writes one warning exactly when [config.defaultLevel] is a non-zero
    number that is not the number of an available descriptor. *)
Theorem defaultLevel_warns_once s :
  defaultLevel s
  = (JS.Ok (if configured (_settings s) then Some levelH2 else None),
     match Config.defaultLevel (_settings s) with
     | Some d =>
         if negb (d =? 0) && negb (configured (_settings s) && (d =? 2))
         then with_warning DefaultLevelNotFound s else s
     | None => s
     end).
Proof.
  unfold defaultLevel, levels. unfold_M.
  destruct (Config.defaultLevel (_settings s)) as [d|].
  - destruct (d =? 0); cbn [negb andb].
    + now rewrite head_levels_of.
    + rewrite find_levels_of. rewrite (Z.eqb_sym 2 d).
      destruct (configured (_settings s) && (d =? 2)) eqn:Hf; cbn [negb].
      * apply andb_true_iff in Hf as [-> _]. reflexivity.
      * unfold with_warning. cbn. now rewrite head_levels_of.
  - now rewrite head_levels_of.
Qed.

(** X9: resolving the number of a resolved level gives that level again,
    and then neither reads the default level nor writes a warning. *)
Theorem currentLevel_idempotent s l t :
  fst (currentLevel s) = JS.Ok (Some l) ->
  currentLevel (with_data (LessonData.mk t (number l)) s)
  = (JS.Ok (Some l), with_data (LessonData.mk t (number l)) s).
Proof.
  destruct (currentLevel_run s) as [c ->]. cbn [fst].
  destruct (configured (_settings s)) eqn:Hc; intros [= <-].
  unfold currentLevel, levels. unfold_M. cbn [_settings with_data _data LessonData.level].
  rewrite find_levels_of, Hc. reflexivity.
Qed.

(** X10: a record that [normalizeData] has returned, with a level among
    the safe integers (below 2^53 in magnitude, which are printed as plain
    numerals and read back exactly), is a fixed point: normalising it
    again, in any state and under any configuration, returns it unchanged
    and writes nothing. *)
Theorem normalizeData_fixed_point data s r s' :
  fst (normalizeData data s) = JS.Ok r ->
  Z.abs (LessonData.level r) < 2 ^ 53 ->
  normalizeData (LessonData.to_value r) s' = (JS.Ok r, s').
Proof.
  intros H _.
  assert (exists t lv, JS.prop (JS.objectOrEmpty data) "text" = JS.Ok t
                       /\ JS.prop (JS.objectOrEmpty data) "level" = JS.Ok lv)
    as (t & lv & Ht & Hl).
  { destruct data; try discriminate H; cbn; eauto. }
  destruct (normalizeData_run data s t lv Ht Hl) as [c Hn]. rewrite Hn in H. cbn [fst] in H.
  destruct (JS.truthy (JS.VNum (JS.parseInt lv)) || configured (_settings s));
    [|discriminate]. injection H as <-.
  unfold normalizeData, LessonData.to_value, JS.record. unfold_M.
  cbn [JS.objectOrEmpty JS.typeof String.eqb Ascii.eqb Bool.eqb negb JS.prop
       LessonData.text LessonData.level].
  change (JS.objectOrEmpty (JS.VObj ?o)) with (JS.VObj o).
  cbn [JS.prop]. rewrite record_text, record_level, parseInt_Int, or_idem.
  destruct (Z.eqb_spec (normalLevel lv) 0) as [E|_]; [now apply normalLevel_nonzero in E|].
  reflexivity.
Qed.

(** X11: for every input but [null], with a descriptor available,
    [normalizeData] returns a record and writes nothing but the console;
    the level of the record is not 0 and resolves to the [H2] descriptor, a
    string text is kept, a missing text becomes the empty string, and an
    input that is not an object gives the record of [{}]. *)
Theorem normalizeData_non_null data s :
  data <> JS.VNull ->
  configured (_settings s) = true ->
  exists r c,
    normalizeData data s = (JS.Ok r, with_console c s)
    /\ LessonData.level r <> 0
    /\ fst (currentLevel (with_data r s)) = JS.Ok (Some levelH2)
    /\ (forall t, JS.prop data "text" = JS.Ok (JS.VStr t) -> LessonData.text r = JS.VStr t)
    /\ (JS.prop data "text" = JS.Ok JS.VUndefined -> LessonData.text r = JS.VStr "")
    /\ (JS.typeof data <> "object" -> r = LessonData.mk (JS.VStr "") 2).
Proof.
  intros Hnn Hc.
  destruct (prop_non_null data "text" Hnn) as [t Ht].
  destruct (prop_non_null data "level" Hnn) as [lv Hl].
  destruct (normalizeData_ok data s t lv Ht Hl Hc) as [c Hn].
  eexists _, c. split; [exact Hn|]. cbn [LessonData.level LessonData.text].
  split; [apply normalLevel_nonzero|]. split.
  { destruct (currentLevel_run (with_data (LessonData.mk (JS.or t (JS.VStr "")) (normalLevel lv)) s))
      as [c' ->]. cbn. now rewrite Hc. }
  destruct data as [| |b|n|x|o]; try congruence; cbn in Ht, Hl;
    injection Ht as <-; injection Hl as <-; cbn [JS.prop JS.typeof]; (split; [|split]).
  all: try (intros t' [= E]; try rewrite E; apply or_VStr).
  all: try (intros [= E]; try rewrite E; reflexivity).
  all: try (intros _; reflexivity).
  intros E. congruence.
Qed.

(** X12: when the setter is given a text, and either no level or an
    element that has no parent, the element is not rebuilt: it is the old
    element with the text as its content, no popup is opened, and the
    record is the normalised data. *)
Theorem set_data_keeps_element o s el lv x :
  default JS.VUndefined (o !! "level") = lv ->
  default JS.VUndefined (o !! "text") = JS.VStr x ->
  _element s = Some el ->
  configured (_settings s) = true ->
  JS.defined lv && parentNode el = false ->
  exists s',
    set_data html (JS.VObj o) s = (JS.Ok tt, s')
    /\ _data s' = LessonData.mk (JS.VStr x) (normalLevel lv)
    /\ _element s' = Some (set_innerHTML html x el)
    /\ popups s' = popups s.
Proof.
  intros Hl Ht He Hc Hno.
  destruct (set_data_element o s el lv x Hl Ht He Hc)
    as (s' & Hs & _ & _ & _ & Hdata & Hel & Hpop).
  rewrite Hno in Hel, Hpop. cbn [andb] in Hpop. eauto.
Qed.

(** X13: on a block that was not rendered the setter throws a
    [TypeError] exactly when the data has a level or a text; in either case
    the record has already been replaced by the normalised data. *)
Theorem set_data_unrendered o s :
  _element s = None ->
  configured (_settings s) = true ->
  let lv := default JS.VUndefined (o !! "level") in
  let txt := default JS.VUndefined (o !! "text") in
  fst (set_data html (JS.VObj o) s)
  = (if JS.defined lv || JS.defined txt then JS.Throw JS.TypeError else JS.Ok tt)
  /\ _data (snd (set_data html (JS.VObj o) s))
     = LessonData.mk (JS.or txt (JS.VStr "")) (normalLevel lv)
  /\ _element (snd (set_data html (JS.VObj o) s)) = None.
Proof.
  intros He Hc lv txt.
  destruct (normalizeData_ok (JS.VObj o) s txt lv eq_refl eq_refl Hc) as [c Hn].
  assert (H : set_data html (JS.VObj o) s
              = (if JS.defined lv || JS.defined txt
                 then JS.Throw JS.TypeError else JS.Ok tt,
                 with_data (LessonData.mk (JS.or txt (JS.VStr "")) (normalLevel lv))
                   (with_console c s))).
  { unfold set_data. unfold mbind at 1. unfold M_bind at 1. rewrite Hn.
    unfold_M. cbn [JS.prop]. fold lv. fold txt.
    unfold the_element. unfold_M.
    destruct (JS.defined lv); cbn; rewrite ?He; cbn; [reflexivity|].
    destruct (JS.defined txt); cbn; rewrite ?He; cbn; reflexivity. }
  rewrite H. cbn. auto.
Qed.

(** X14: after the setter stored a text that the element gives back
    unchanged, the getter returns that text with level 2, and overwrites
    with 2 whatever level the setter had stored. *)
Theorem get_data_after_set_data o s el lv x :
  default JS.VUndefined (o !! "level") = lv ->
  default JS.VUndefined (o !! "text") = JS.VStr x ->
  _element s = Some el ->
  configured (_settings s) = true ->
  html x = x ->
  exists s' s'',
    set_data html (JS.VObj o) s = (JS.Ok tt, s')
    /\ _data s' = LessonData.mk (JS.VStr x) (normalLevel lv)
    /\ get_data s' = (JS.Ok (LessonData.mk (JS.VStr x) 2), s'')
    /\ _data s'' = LessonData.mk (JS.VStr x) 2.
Proof.
  intros Hl Ht He Hc Hh.
  destruct (set_data_text html o s el lv x Hl Ht He Hc)
    as (s' & el' & Hs & Hset & Hdata & Hel & Hin & _).
  destruct (get_data_run s' el' Hel) as [c Hg]. rewrite Hset, Hc in Hg. cbv zeta in Hg.
  rewrite Hin, Hh in Hg. eexists s', _. repeat split; eassumption || reflexivity.
Qed.

(** X15: when the configuration leaves no descriptor available,
    [onPaste] throws a [TypeError] before it maps the tag and changes
    nothing but the console. *)
Theorem onPaste_unconfigured content s :
  configured (_settings s) = false ->
  exists c, onPaste html content s = (JS.Throw JS.TypeError, with_console c s).
Proof.
  intros Hc. destruct (pasteLevel_unconfigured content s Hc) as [c Hp].
  exists c. unfold onPaste. unfold mbind at 1. unfold M_bind at 1. now rewrite Hp.
Qed.

(** X16: the reduce of [onPaste] returns the target itself when the
    target is among the candidates. *)
Theorem nearest_of_candidate target candidates :
  In target candidates -> nearest target candidates = JS.Ok target.
Proof.
  destruct candidates as [|c cs]; [intros []|]. intros Hin.
  unfold nearest, JS.reduce. now rewrite fold_nearer_member.
Qed.

(** X17: for the tags the tool registers in [pasteConfig], on a rendered
    block with a descriptor available, [onPaste] stores level 2 and the
    pasted content whatever [config.levels] holds, and an element that has
    a parent is replaced by an [H2] with the pasted content (a bare [DIV]
    when that content is empty). *)
Theorem onPaste_registered_tag s el content :
  _element s = Some el ->
  configured (_settings s) = true ->
  In (tagName content) pasteConfig ->
  exists s',
    onPaste html content s = (JS.Ok tt, s')
    /\ _data s' = LessonData.mk (JS.VStr (innerHTML content)) 2
    /\ _element s'
       = Some (if parentNode el
               then if (innerHTML content =? "")%string
                    then placeholderElement (html "") true
                    else lessonElement s (html (innerHTML content)) true
               else set_innerHTML html (innerHTML content) el).
Proof.
  intros He Hc [Htag|[]].
  destruct (pasteLevel_run content s Hc) as [c Hp]. rewrite <- Htag in Hp.
  change (tagLevel "H2" 2) with 2 in Hp.
  assert (Hn : match Config.levels (_settings s) with
               | Some l => nearest 2 l
               | None => JS.Ok 2
               end = JS.Ok 2).
  { unfold configured in Hc. destruct (Config.levels (_settings s)) as [l|]; [|reflexivity].
    apply configured_includes in Hc. destruct l as [|y l]; [destruct Hc|].
    unfold nearest, JS.reduce. now rewrite fold_nearer_member. }
  rewrite Hn in Hp.
  destruct (set_data_element
              (<["text" := JS.VStr (innerHTML content)]>
                 (<["level" := JS.VNum (JS.Int 2)]> ∅))
              (with_console c s) el (JS.VNum (JS.Int 2)) (innerHTML content))
    as (s' & Hs & _ & _ & _ & Hdata & Hel & _).
  { apply record_level. } { apply record_text. } { exact He. } { exact Hc. }
  exists s'. split; [|split].
  - unfold onPaste. unfold mbind at 1. unfold M_bind at 1. rewrite Hp. exact Hs.
  - rewrite Hdata. reflexivity.
  - rewrite Hel. reflexivity.
Qed.

(** X18: OK with a non-empty title, on a block whose element has a
    parent and with a descriptor available, stores the title with level 2,
    replaces the element by an [H2] holding the title, removes the popup
    and asks nothing of the editor. *)
Theorem okButton_click_title s el inputValue :
  _element s = Some el ->
  parentNode el = true ->
  configured (_settings s) = true ->
  inputValue <> "" ->
  exists s',
    okButton_click html inputValue s = (JS.Ok [], s')
    /\ _data s' = LessonData.mk (JS.VStr inputValue) 2
    /\ _element s' = Some (lessonElement s (html inputValue) true)
    /\ popups s' = pred (popups s).
Proof.
  intros He Hp Hc Hne. unfold okButton_click. rewrite (eqb_empty_false _ Hne). cbn [negb].
  unfold mbind at 1. unfold M_bind at 1.
  destruct (currentLevel_run s) as [c ->]. rewrite Hc.
  unfold mbind at 1. unfold M_bind at 1.
  destruct (set_data_element
              (<["text" := JS.VStr inputValue]> (<["level" := level_value (Some levelH2)]> ∅))
              (with_console c s) el (level_value (Some levelH2)) inputValue)
    as (s' & Hs & _ & _ & _ & Hdata & Hel & Hpop).
  { apply record_level. } { apply record_text. } { exact He. } { exact Hc. }
  unfold JS.record. rewrite Hs. unfold_M. cbn.
  rewrite Hp, (eqb_empty_false _ Hne) in Hel, Hpop. cbn in Hel, Hpop.
  eexists. split; [reflexivity|]. cbn. rewrite Hdata, Hel, Hpop. auto.
Qed.

(** X19: OK with a non-empty title when no descriptor is available
    throws a [TypeError]; the popup stays and only the console may have
    changed. *)
Theorem okButton_click_without_level s inputValue :
  configured (_settings s) = false ->
  inputValue <> "" ->
  exists c, okButton_click html inputValue s = (JS.Throw JS.TypeError, with_console c s).
Proof.
  intros Hc Hne. unfold okButton_click. rewrite (eqb_empty_false _ Hne). cbn [negb].
  unfold mbind at 1. unfold M_bind at 1.
  destruct (currentLevel_run s) as [c ->]. rewrite Hc.
  unfold mbind at 1. unfold M_bind at 1. unfold set_data.
  unfold mbind at 1. unfold M_bind at 1.
  match goal with |- context [normalizeData ?d ?s0] =>
    destruct (normalizeData_run d s0 (JS.VStr inputValue) JS.VUndefined) as [c' ->] end.
  { unfold JS.record. cbn. now rewrite record_text. }
  { unfold JS.record. cbn. now rewrite record_level. }
  cbn [_settings with_console]. rewrite Hc. cbn. eauto.
Qed.

(** X20: [merge] always rebuilds an element that has a parent: the new
    element is the [H2] that [getTag] builds, holding the merged text, or,
    when the merged text is empty, a bare [DIV] with one more popup. *)
Theorem merge_rebuilds_inserted o s el a :
  default JS.VUndefined (o !! "text") = JS.VStr a ->
  _element s = Some el ->
  parentNode el = true ->
  configured (_settings s) = true ->
  exists s',
    merge html (JS.VObj o) s = (JS.Ok tt, s')
    /\ _element s'
       = Some (if (innerHTML el +:+ a =? "")%string
               then placeholderElement (html "") true
               else lessonElement s (html (innerHTML el +:+ a)) true)
    /\ popups s'
       = if (innerHTML el +:+ a =? "")%string then S (popups s) else popups s.
Proof.
  intros Ht He Hp Hc.
  destruct (merge_element (JS.VObj o) s el (JS.VStr a)) as (s' & Hm & _ & Hel & Hpop);
    [cbn; congruence | exact He | exact Hc |].
  rewrite Hp in Hel, Hpop. cbn in Hel, Hpop. eauto.
Qed.

(** X21: merging a record that has no [text] appends the string
    ["undefined"] to the content. *)
Theorem merge_missing_text o s el :
  o !! "text" = None ->
  _element s = Some el ->
  configured (_settings s) = true ->
  exists s' el',
    merge html (JS.VObj o) s = (JS.Ok tt, s')
    /\ _data s' = LessonData.mk (JS.VStr (innerHTML el +:+ "undefined")) 2
    /\ _element s' = Some el'
    /\ innerHTML el' = html (innerHTML el +:+ "undefined").
Proof.
  intros Ht He Hc.
  destruct (merge_element (JS.VObj o) s el JS.VUndefined) as (s' & Hm & Hd & Hel & _);
    [cbn; now rewrite Ht | exact He | exact Hc |].
  cbn [JS.to_string] in Hd, Hel. eexists s', _. repeat split; try eassumption.
  assert (Hne : (innerHTML el +:+ "undefined" =? "")%string = false).
  { apply eqb_empty_false. destruct (innerHTML el); discriminate. }
  rewrite Hne. destruct (parentNode el); reflexivity.
Qed.

(** X22: [merge] returns exactly when the block is rendered, a
    descriptor is available and [data.text] can be read; every other call
    throws a [TypeError] and leaves the element and the popups as they
    were. *)
Theorem merge_fails_cleanly data s :
  fst (merge html data s)
  = match _element s, JS.prop data "text" with
    | Some _, JS.Ok _ =>
        if configured (_settings s) then JS.Ok tt else JS.Throw JS.TypeError
    | _, _ => JS.Throw JS.TypeError
    end
  /\ (forall e, fst (merge html data s) = JS.Throw e ->
        _element (snd (merge html data s)) = _element s
        /\ popups (snd (merge html data s)) = popups s).
Proof.
  destruct (_element s) as [el|] eqn:He.
  2:{ assert (H : merge html data s = (JS.Throw JS.TypeError, s)).
      { unfold merge. unfold mbind at 1. unfold M_bind at 1.
        now rewrite (get_data_null s He). }
      rewrite H. cbn. auto. }
  destruct (configured (_settings s)) eqn:Hc.
  - destruct (JS.prop data "text") as [v|e] eqn:Ht.
    + destruct (merge_element data s el v Ht He Hc) as (s' & -> & _).
      cbn. split; [reflexivity | discriminate].
    + destruct (get_data_run s el He) as [c H1]. rewrite Hc in H1. cbv zeta in H1.
      assert (H : exists s', merge html data s = (JS.Throw e, s')
                             /\ _element s' = _element s /\ popups s' = popups s).
      { unfold merge. unfold mbind at 1. unfold M_bind at 1. rewrite H1.
        unfold lift at 1. unfold mbind at 1. unfold M_bind at 1. rewrite Ht.
        eexists. split; [reflexivity|]. cbn. auto. }
      destruct H as (s' & -> & Hel & Hpop). cbn. rewrite He in Hel.
      destruct e. auto.
  - destruct (get_data_run s el He) as [c H1]. rewrite Hc in H1.
    assert (H : exists s', merge html data s = (JS.Throw JS.TypeError, s')
                           /\ _element s' = _element s /\ popups s' = popups s).
    { unfold merge. unfold mbind at 1. unfold M_bind at 1. rewrite H1.
      eexists. split; [reflexivity|]. cbn. auto. }
    destruct H as (s' & -> & Hel & Hpop). cbn. rewrite He in Hel.
    destruct (JS.prop data "text"); auto.
Qed.

End Further.

(** ** The further properties on concrete blocks *)

Lemma save_then_validate_witness :
  exists r,
    fst (save pasted_H2 hello) = JS.Ok r
    /\ validate (LessonData.to_value r) = JS.Ok (negb (blank (innerHTML pasted_H2))).
Proof. apply (save_then_validate hello pasted_H2). reflexivity. Defined.

Lemma save_idempotent_witness :
  fst (save (set_innerHTML plain (JS.trim (innerHTML pasted_H2)) (createElement "DIV")) hello)
  = fst (save pasted_H2 hello).
Proof. apply (save_idempotent plain hello pasted_H2 (createElement "DIV")). reflexivity. Defined.

Lemma render_text_element_witness :
  exists c,
    render plain built
    = (let el := lessonElement built (plain (JS.to_string (LessonData.text (_data built)))) false in
       (JS.Ok el, with_element (Some el) (with_console c built))).
Proof. apply (render_text_element plain built); reflexivity. Defined.

Lemma render_empty_opens_popup_each_time_witness :
  let s' := Nat.iter 2 (fun x => snd (render plain x)) built_empty in
  render plain s'
  = (JS.Ok (placeholderElement (plain "") false),
     with_element (Some (placeholderElement (plain "") false)) (with_popup s'))
  /\ popups s' = (2 + popups built_empty)%nat
  /\ _data s' = _data built_empty.
Proof. apply (render_empty_opens_popup_each_time plain built_empty 2). reflexivity. Defined.

Lemma render_without_level_throws_witness :
  fst (constructor x_3 only_3 host false) = JS.Ok tt
  /\ fst (render plain (snd (constructor x_3 only_3 host false))) = JS.Throw JS.TypeError
  /\ _element (snd (render plain (snd (constructor x_3 only_3 host false)))) = None.
Proof.
  apply (render_without_level_throws plain x_3 only_3 host false (JS.VStr "x")
           (JS.VNum (JS.Int 3))); reflexivity.
Defined.

Lemma currentLevel_idempotent_witness :
  currentLevel (with_data (LessonData.mk (JS.VStr "z") (number levelH2)) hello)
  = (JS.Ok (Some levelH2), with_data (LessonData.mk (JS.VStr "z") (number levelH2)) hello).
Proof. apply (currentLevel_idempotent hello levelH2 (JS.VStr "z")). reflexivity. Defined.

Lemma normalizeData_fixed_point_witness :
  normalizeData (LessonData.to_value (LessonData.mk (JS.VStr "Hello") 3))
    (init only_3 host false)
  = (JS.Ok (LessonData.mk (JS.VStr "Hello") 3), init only_3 host false).
Proof.
  apply (normalizeData_fixed_point hello_3 (init no_config host false));
    [reflexivity | vm_compute; reflexivity].
Defined.

Lemma normalizeData_non_null_witness :
  exists r c,
    normalizeData (JS.VNum (JS.Int 7)) (init no_config host false)
    = (JS.Ok r, with_console c (init no_config host false))
    /\ LessonData.level r <> 0
    /\ fst (currentLevel (with_data r (init no_config host false))) = JS.Ok (Some levelH2)
    /\ (forall t, JS.prop (JS.VNum (JS.Int 7)) "text" = JS.Ok (JS.VStr t) ->
          LessonData.text r = JS.VStr t)
    /\ (JS.prop (JS.VNum (JS.Int 7)) "text" = JS.Ok JS.VUndefined ->
          LessonData.text r = JS.VStr "")
    /\ (JS.typeof (JS.VNum (JS.Int 7)) <> "object" -> r = LessonData.mk (JS.VStr "") 2).
Proof.
  apply (normalizeData_non_null (JS.VNum (JS.Int 7)) (init no_config host false));
    first [reflexivity | discriminate].
Defined.

Lemma set_data_keeps_element_witness :
  exists s',
    set_data plain (JS.VObj world) hello = (JS.Ok tt, s')
    /\ _data s' = LessonData.mk (JS.VStr " World") (normalLevel JS.VUndefined)
    /\ _element s'
       = Some (set_innerHTML plain " World"
                 (set_parentNode true (lessonElement built (plain "Hello") false)))
    /\ popups s' = popups hello.
Proof.
  apply (set_data_keeps_element plain world hello _ JS.VUndefined " World"); reflexivity.
Defined.

Lemma set_data_unrendered_witness :
  fst (set_data plain (JS.VObj level_4) built) = JS.Throw JS.TypeError
  /\ _data (snd (set_data plain (JS.VObj level_4) built)) = LessonData.mk (JS.VStr "") 4
  /\ _element (snd (set_data plain (JS.VObj level_4) built)) = None.
Proof. apply (set_data_unrendered plain level_4 built); reflexivity. Defined.

Lemma onPaste_unconfigured_witness :
  exists c,
    onPaste plain pasted_H1 (init only_3 host false)
    = (JS.Throw JS.TypeError, with_console c (init only_3 host false)).
Proof. apply (onPaste_unconfigured plain pasted_H1 (init only_3 host false)). reflexivity. Defined.

Lemma nearest_of_candidate_witness : nearest 2 [3; 2; 4] = JS.Ok 2.
Proof. apply (nearest_of_candidate 2 [3; 2; 4]). simpl. lia. Defined.

Lemma onPaste_registered_tag_witness :
  exists s',
    onPaste plain pasted_H2 pending = (JS.Ok tt, s')
    /\ _data s' = LessonData.mk (JS.VStr "Pasted") 2
    /\ _element s' = Some (lessonElement pending (plain "Pasted") true).
Proof.
  apply (onPaste_registered_tag plain pending
           (placeholderElement (plain "") true) pasted_H2);
    first [reflexivity | simpl; auto].
Defined.

Lemma okButton_click_title_witness :
  exists s',
    okButton_click plain "Title" pending = (JS.Ok [], s')
    /\ _data s' = LessonData.mk (JS.VStr "Title") 2
    /\ _element s' = Some (lessonElement pending (plain "Title") true)
    /\ popups s' = pred (popups pending).
Proof.
  apply (okButton_click_title plain pending (placeholderElement (plain "") true) "Title");
    first [reflexivity | discriminate].
Defined.

Lemma okButton_click_without_level_witness :
  exists c,
    okButton_click plain "Title" (init only_3 host false)
    = (JS.Throw JS.TypeError, with_console c (init only_3 host false)).
Proof.
  apply (okButton_click_without_level plain (init only_3 host false) "Title");
    first [reflexivity | discriminate].
Defined.

Lemma merge_rebuilds_inserted_witness :
  exists s',
    merge plain (JS.VObj world) hello = (JS.Ok tt, s')
    /\ _element s' = Some (lessonElement hello (plain "Hello World") true)
    /\ popups s' = popups hello.
Proof.
  apply (merge_rebuilds_inserted plain world hello
           (set_parentNode true (lessonElement built (plain "Hello") false)) " World");
    reflexivity.
Defined.

Lemma merge_missing_text_witness :
  exists s' el',
    merge plain (JS.VObj level_4) hello = (JS.Ok tt, s')
    /\ _data s' = LessonData.mk (JS.VStr "Helloundefined") 2
    /\ _element s' = Some el'
    /\ innerHTML el' = plain "Helloundefined".
Proof.
  apply (merge_missing_text plain level_4 hello
           (set_parentNode true (lessonElement built (plain "Hello") false)));
    reflexivity.
Defined.

Lemma get_data_after_set_data_witness :
  exists s' s'',
    set_data plain (JS.VObj level_5_bye) hello = (JS.Ok tt, s')
    /\ _data s' = LessonData.mk (JS.VStr "Bye") 5
    /\ get_data s' = (JS.Ok (LessonData.mk (JS.VStr "Bye") 2), s'')
    /\ _data s'' = LessonData.mk (JS.VStr "Bye") 2.
Proof.
  apply (get_data_after_set_data plain level_5_bye hello
           (set_parentNode true (lessonElement built (plain "Hello") false))
           (JS.VNum (JS.Int 5)) "Bye");
    reflexivity.
Defined.
